(** * Planets API: authentication guard and CRUD handlers

    A shallow embedding of the two implementation variants of the Planets
    API, [Backend/app.py] (FastAPI, SQLAlchemy, python-jose) and
    [Backend/flask_app.py] (Flask, in-memory lists, PyJWT), together with
    the properties of the authentication path and of the mutating planet
    endpoints.

    Conventions.
    - Time is counted in whole seconds since the epoch (the resolution of
      the [exp] claim); a [timedelta] is a number of seconds.
    - A Python exception that the framework turns into a response is a
      value of [Result]; module-level mutable state ([planets_db],
      [users_db], the SQL tables) is passed explicitly.
    - The third-party libraries (the JWT codec, passlib's [CryptContext])
      are interfaces: the application code is checked against any
      implementation of them. *)

From Stdlib Require Import ZArith QArith Qabs Qcanon String Ascii Lia.
From stdpp Require Import base option list gmap strings countable pretty.

Local Open Scope Z_scope.

(** ** Python runtime helpers *)

Module Py.

(** [s.split(" ")]: every single space separates two fields, so the
    result is never empty and consecutive spaces give empty fields. *)
Fixpoint split_space (s : string) : list string :=
  match s with
  | EmptyString => [EmptyString]
  | String c s' =>
      if Ascii.eqb c " "%char then EmptyString :: split_space s'
      else match split_space s' with
           | [] => [String c EmptyString]
           | w :: ws => String c w :: ws
           end
  end.

(** [s.partition(" ")] without the separator: the text before the first
    space and the text after it; [(s, "")] when there is no space. *)
Fixpoint partition_space (s : string) : string * string :=
  match s with
  | EmptyString => (EmptyString, EmptyString)
  | String c s' =>
      if Ascii.eqb c " "%char then (EmptyString, s')
      else let '(a, b) := partition_space s' in (String c a, b)
  end.

Definition ascii_lower (c : ascii) : ascii :=
  let n := nat_of_ascii c in
  if (Nat.leb 65 n && Nat.leb n 90)%bool then ascii_of_nat (n + 32) else c.

(** [s.lower()] on ASCII text. *)
Fixpoint lower (s : string) : string :=
  match s with
  | EmptyString => EmptyString
  | String c s' => String (ascii_lower c) (lower s')
  end.

(** Truth value of a [str]: only the empty string is false. *)
Definition str_bool (s : string) : bool :=
  match s with EmptyString => false | String _ _ => true end.

(** Truth value of a [timedelta]: only the zero duration is false. *)
Definition timedelta_bool (d : Z) : bool := negb (d =? 0).

(** [timedelta(minutes=m)] in seconds. *)
Definition minutes (m : Z) : Z := 60 * m.

(** [max(l, default=d)] on integers. *)
Definition max_default (d : Z) (l : list Z) : Z :=
  match l with
  | [] => d
  | x :: l' => foldl Z.max x l'
  end.

(** *** [float]

    A Python [float] is an IEEE 754 binary64 number; a finite one is given
    here by its exact value, a rational.  The sum of two floats is the
    exact sum rounded to the nearest float, to the one with the even
    significand when two are as near. *)

(** [2 ** e]. *)
Definition pow2 (e : Z) : Q :=
  if 0 <=? e then inject_Z (2 ^ e) else Qinv (inject_Z (2 ^ (- e))).

(** For [0 < x]: the [e] with [2 ** e <= x < 2 ** (e + 1)]. *)
Definition floor_log2 (x : Q) : Z :=
  let e := Z.log2 (Qnum x) - Z.log2 (Zpos (Qden x)) in
  if Qle_bool (pow2 e) x then e else e - 1.

(** For [0 <= x]: the nearest integer, the even one of two. *)
Definition round_half_even (x : Q) : Z :=
  let n := Qnum x in
  let d := Zpos (Qden x) in
  let q := n / d in
  match 2 * (n mod d) ?= d with
  | Lt => q
  | Gt => q + 1
  | Eq => if Z.even q then q else q + 1
  end.

(** The float nearest to [x]: 53 significant bits, and below
    [2 ** -1022] the fixed spacing of the subnormal numbers.  Where this
    is used, to add 1 to a float, the result is never beyond the largest
    float. *)
Definition float_round (x : Q) : Q :=
  if Qeq_bool x 0 then 0%Q
  else
    let a := Qabs x in
    let e := Z.max (floor_log2 a) (-1022) in
    let ulp := pow2 (e - 52) in
    let m := (inject_Z (round_half_even (a / ulp)) * ulp)%Q in
    if Qle_bool 0 x then m else (- m)%Q.

(** [a + b] on floats. *)
Definition float_add (a b : Qc) : Qc := Q2Qc (float_round (a + b)).

End Py.

(** The first element of [l] whose [f] is [b]: the query
    [filter(column == b).first()] of app.py and the scan
    [next((x for x in l if x[key] == b), None)] of flask_app.py. *)
Definition first_with {A B : Type} `{EqDecision B} (f : A → B) (b : B) (l : list A)
  : option A :=
  snd <$> list_find (λ y, f y = b) l.

(** ** Outcomes of a request handler *)

(** [fastapi.HTTPException]. *)
Record HTTPException := {
  status_code : Z;
  detail : string;
  headers : list (string * string)
}.

(** What running a piece of handler code gives: a value, an
    [HTTPException] (answered with its status code), or an exception no
    handler catches (answered with 500). *)
Inductive Result (A : Type) : Type :=
| Return (a : A)
| Raise (e : HTTPException)
| Fault (what : string).
Arguments Return {A} a.
Arguments Raise {A} e.
Arguments Fault {A} what.

Global Instance Result_ret : MRet Result := λ A a, Return a.
Global Instance Result_bind : MBind Result := λ A B f r,
  match r with
  | Return a => f a
  | Raise e => Raise e
  | Fault w => Fault w
  end.

(** Status code of the response: [success] is the code the route
    declares for a normal return. *)
Definition http_status {A} (success : Z) (r : Result A) : Z :=
  match r with
  | Return _ => success
  | Raise e => status_code e
  | Fault _ => 500
  end.

(** ** Token claims and the JWT codec *)

(** A claim value: text (as [sub]) or an instant (as [exp]). *)
Inductive claim : Type :=
| ClaimStr (s : string)
| ClaimTime (t : Z).

Global Instance claim_eq_dec : EqDecision claim.
Proof. solve_decision. Defined.

Global Instance claim_countable : Countable claim.
Proof.
  refine (inj_countable'
            (λ c, match c with ClaimStr s => inl s | ClaimTime t => inr t end)
            (λ x, match x with inl s => ClaimStr s | inr t => ClaimTime t end) _).
  by intros [].
Defined.

(** The payload both variants sign: [{"sub": sub, "exp": exp}]. *)
Definition access_claims (sub : string) (exp : Z) : gmap string claim :=
  <["exp" := ClaimTime exp]> {["sub" := ClaimStr sub]}.

(** The JWT library ([jose.jwt] in app.py, [jwt] of PyJWT in
    flask_app.py).  [jwt_decode token key algorithms now] is [None] where
    the library raises ([JWTError], [PyJWTError]); [now] is the clock it
    reads.  The laws are the part of the libraries' contract the
    application relies on; the two libraries differ on a token whose
    [exp] equals the clock reading, which the laws leave open. *)
Class JwtLib := {
  jwt_encode : gmap string claim → string → string → string;
  jwt_decode : string → string → list string → Z → option (gmap string claim);
  jwt_algorithms : list string;
  jwt_hs256 : "HS256" ∈ jwt_algorithms;
  jwt_decode_fresh : ∀ sub exp key alg algorithms now,
    alg ∈ jwt_algorithms → alg ∈ algorithms → now < exp →
    jwt_decode (jwt_encode (access_claims sub exp) key alg) key algorithms now
    = Some (access_claims sub exp);
  jwt_decode_expired : ∀ sub exp key alg algorithms now,
    alg ∈ jwt_algorithms → exp < now →
    jwt_decode (jwt_encode (access_claims sub exp) key alg) key algorithms now
    = None;
  jwt_decode_empty : ∀ key algorithms now,
    jwt_decode EmptyString key algorithms now = None
}.

(** passlib's [CryptContext(schemes=["bcrypt"])].  Hashing draws a fresh
    salt, here the first argument of [pwd_hash]. *)
Class CryptContext := {
  pwd_hash : string → string → string;
  pwd_verify : string → string → bool
}.

(** ** Variant 1: app.py (FastAPI) *)

Module FastApi.

(** JWT configuration: the values used when the environment does not
    override them. *)
Definition SECRET_KEY : string :=
  "your-secret-key-change-in-production-make-it-long-and-random".
Definition ALGORITHM : string := "HS256".
Definition ACCESS_TOKEN_EXPIRE_MINUTES : Z := 30.

(** A row of table [planets].  The four columns declared
    [nullable=False] besides the key hold a value, the other three may
    be NULL. *)
Record Planet := {
  planet_id : Z;
  name : string;
  planet_type : string;
  distance_from_sun : Qc;
  radius : Qc;
  description : option string;
  mass : option Qc;
  orbital_period : option Qc;
  created_at : Z;
  updated_at : Z
}.

(** A row of table [users]. *)
Record User := {
  user_id : Z;
  username : string;
  email : string;
  hashed_password : string;
  is_active : bool;
  user_created_at : Z
}.

Global Instance Planet_eq_dec : EqDecision Planet.
Proof. solve_decision. Defined.
Global Instance User_eq_dec : EqDecision User.
Proof. solve_decision. Defined.

(** The database both [get_db] and [SessionLocal()] open. *)
Record Db := {
  planets : list Planet;
  users : list User
}.

(** [PlanetCreate], after validation. *)
Record PlanetCreate := {
  new_name : string;
  new_planet_type : string;
  new_distance_from_sun : Qc;
  new_radius : Qc;
  new_description : option string;
  new_mass : option Qc;
  new_orbital_period : option Qc
}.

(** [PlanetUpdate], after validation.  Every field is optional and the
    handler asks for [dict(exclude_unset=True)], so a field is
    - [None] when the request body does not mention it,
    - [Some None] when the body sets it to [null],
    - [Some (Some v)] when the body gives the value [v]. *)
Record PlanetUpdate := {
  set_name : option (option string);
  set_planet_type : option (option string);
  set_distance_from_sun : option (option Qc);
  set_radius : option (option Qc);
  set_description : option (option string);
  set_mass : option (option Qc);
  set_orbital_period : option (option Qc)
}.

(** [HTTPAuthorizationCredentials]. *)
Record HTTPAuthorizationCredentials := {
  scheme : string;
  credentials : string
}.

(** Modelled from the spec: [fastapi.security.HTTPBearer], the
    framework dependency behind [security = HTTPBearer()], whose code is
    not part of the repository.  A request without an [Authorization]
    header, or whose header is not of the shape [<scheme> <token>], or
    whose scheme is not Bearer, is answered with 403 before
    [get_current_user] runs; otherwise the scheme and the token are
    handed on.  Scheme names are compared without regard to case. *)
Definition HTTPBearer (authorization : option string)
  : Result HTTPAuthorizationCredentials :=
  match authorization with
  | None =>
      Raise {| status_code := 403; detail := "Not authenticated"; headers := [] |}
  | Some value =>
      let '(sch, cred) := Py.partition_space value in
      if negb (Py.str_bool sch && Py.str_bool cred) then
        Raise {| status_code := 403; detail := "Not authenticated"; headers := [] |}
      else if negb (String.eqb (Py.lower sch) "bearer") then
        Raise {| status_code := 403;
                 detail := "Invalid authentication credentials";
                 headers := [] |}
      else Return {| scheme := sch; credentials := cred |}
  end.

Section app.
Context `{!JwtLib, !CryptContext}.

Definition verify_password (plain_password hashed_password : string) : bool :=
  pwd_verify plain_password hashed_password.

Definition get_password_hash (salt password : string) : string :=
  pwd_hash salt password.

(** [expires_delta] is [None] when the caller leaves it out; the test
    [if expires_delta:] is Python's truth value of the argument.
    [utcnow] is the reading of [datetime.utcnow()]. *)
Definition create_access_token
    (data : gmap string claim) (expires_delta : option Z) (utcnow : Z) : string :=
  let to_encode := data in
  let expire :=
    match expires_delta with
    | Some delta =>
        if Py.timedelta_bool delta then utcnow + delta
        else utcnow + Py.minutes ACCESS_TOKEN_EXPIRE_MINUTES
    | None => utcnow + Py.minutes ACCESS_TOKEN_EXPIRE_MINUTES
    end in
  let to_encode := <["exp" := ClaimTime expire]> to_encode in
  jwt_encode to_encode SECRET_KEY ALGORITHM.

(** [payload.get("sub")] is [None] when the claim is missing.  A [sub]
    that is not text never reaches the handler: the library refuses
    such a token with a [JWTError], so that case is the same
    rejection. *)
Definition verify_token
    (token : string) (credentials_exception : HTTPException) (now : Z)
  : Result string :=
  match jwt_decode token SECRET_KEY [ALGORITHM] now with
  | Some payload =>
      match payload !! "sub" with
      | Some (ClaimStr username) => Return username
      | Some (ClaimTime _) => Raise credentials_exception
      | None => Raise credentials_exception
      end
  | None => Raise credentials_exception
  end.

(** [db.query(User).filter(User.username == username).first()]. *)
Definition query_user (db : Db) (uname : string) : option User :=
  first_with username uname (users db).

Definition authenticate_user (db : Db) (uname password : string) : option User :=
  match query_user db uname with
  | None => None
  | Some user =>
      if negb (verify_password password (hashed_password user)) then None
      else Some user
  end.

Definition credentials_exception : HTTPException :=
  {| status_code := 401;
     detail := "Could not validate credentials";
     headers := [("WWW-Authenticate", "Bearer")] |}.

Definition get_current_user
    (creds : HTTPAuthorizationCredentials) (db : Db) (now : Z) : Result User :=
  let token := credentials creds in
  uname ← verify_token token credentials_exception now;
  match query_user db uname with
  | None => Raise credentials_exception
  | Some user => Return user
  end.

(** [Depends(get_current_user)]: the framework first resolves
    [Depends(security)] from the request's [Authorization] header. *)
Definition current_user_dependency
    (authorization : option string) (db : Db) (now : Z) : Result User :=
  creds ← HTTPBearer authorization;
  get_current_user creds db now.

(** *** Planet handlers *)

(** The keys SQLite holds and compares: the signed 64-bit integers. *)
Definition sqlite_integer (z : Z) : bool :=
  (- 2 ^ 63 <=? z) && (z <? 2 ^ 63).

(** What the database driver makes of the Python [int] in
    [Planet.id == planet_id] when the query is sent: an [int] that does
    not fit 64 bits raises [OverflowError], which no handler catches.
    [planet_id: int] itself is unbounded. *)
Definition bind_integer (z : Z) : Result Z :=
  if sqlite_integer z then Return z else Fault "OverflowError".

(** [db.query(Planet).filter(Planet.id == planet_id).first()] once the
    key is bound: the search of the table.  The three handlers below take
    the key as bound; the routes bind it. *)
Definition query_planet (db : Db) (pid : Z) : option Planet :=
  first_with planet_id pid (planets db).

(** [db.query(Planet).filter(Planet.name == name).first()]. *)
Definition query_planet_by_name (db : Db) (nm : string) : option Planet :=
  first_with name nm (planets db).

(** The key the table gives a new row: one more than the largest key
    in use, 1 in an empty table. *)
Definition next_planet_id (db : Db) : Z :=
  Py.max_default 0 (planet_id <$> planets db) + 1.

Definition create_planet
    (planet : PlanetCreate) (db : Db) (current_user : User) (now : Z)
  : Result Planet * Db :=
  match query_planet_by_name db (new_name planet) with
  | Some existing_planet =>
      (Raise {| status_code := 400;
                detail := "Planet with this name already exists";
                headers := [] |}, db)
  | None =>
      let db_planet :=
        {| planet_id := next_planet_id db;
           name := new_name planet;
           planet_type := new_planet_type planet;
           distance_from_sun := new_distance_from_sun planet;
           radius := new_radius planet;
           description := new_description planet;
           mass := new_mass planet;
           orbital_period := new_orbital_period planet;
           created_at := now;
           updated_at := now |} in
      (Return db_planet,
       {| planets := planets db ++ [db_planet]; users := users db |})
  end.

(** The loop [for field, value in update_data.items(): setattr(...)]
    on the loaded row.  The result is what the session holds before
    the commit: a column declared NOT NULL may have been set to
    [None] there. *)
Record PendingPlanet := {
  pending_name : option string;
  pending_planet_type : option string;
  pending_distance_from_sun : option Qc;
  pending_radius : option Qc;
  pending_description : option string;
  pending_mass : option Qc;
  pending_orbital_period : option Qc
}.

Definition setattrs (update_data : PlanetUpdate) (db_planet : Planet)
  : PendingPlanet :=
  {| pending_name := default (Some (name db_planet)) (set_name update_data);
     pending_planet_type :=
       default (Some (planet_type db_planet)) (set_planet_type update_data);
     pending_distance_from_sun :=
       default (Some (distance_from_sun db_planet))
               (set_distance_from_sun update_data);
     pending_radius := default (Some (radius db_planet)) (set_radius update_data);
     pending_description :=
       default (description db_planet) (set_description update_data);
     pending_mass := default (mass db_planet) (set_mass update_data);
     pending_orbital_period :=
       default (orbital_period db_planet) (set_orbital_period update_data) |}.

(** The row an UPDATE of [old] writes, or [None] when a NOT NULL
    column would become NULL.  [updated_at] follows
    [onupdate=func.now()]: it moves only when the statement is
    emitted, that is when some column changes. *)
Definition flushed_row (old : Planet) (pending : PendingPlanet) (now : Z)
  : option Planet :=
  nm ← pending_name pending;
  ty ← pending_planet_type pending;
  dist ← pending_distance_from_sun pending;
  rad ← pending_radius pending;
  let row stamp :=
    {| planet_id := planet_id old;
       name := nm;
       planet_type := ty;
       distance_from_sun := dist;
       radius := rad;
       description := pending_description pending;
       mass := pending_mass pending;
       orbital_period := pending_orbital_period pending;
       created_at := created_at old;
       updated_at := stamp |} in
  Some (if decide (row (updated_at old) = old) then old else row now).

(** [db.commit()] of a changed row: the write is refused (an
    [IntegrityError], which no handler catches) when a NOT NULL column
    is NULL or another row already has the new name; the table is
    then left as it was. *)
Definition commit_update (db : Db) (old : Planet) (pending : PendingPlanet) (now : Z)
  : Result Planet * Db :=
  match flushed_row old pending now with
  | None => (Fault "IntegrityError", db)
  | Some row =>
      if decide (Exists (λ q, planet_id q ≠ planet_id old ∧ name q = name row)
                        (planets db))
      then (Fault "IntegrityError", db)
      else
        (Return row,
         {| planets :=
              (λ q, if decide (planet_id q = planet_id old) then row else q)
                <$> planets db;
            users := users db |})
  end.

(** The handler of [PUT /planets/{planet_id}] from the point where its
    first query has bound the key: [pid] is the key as SQLite received
    it.  [put_planet] below is the whole request. *)
Definition update_planet
    (pid : Z) (planet_update : PlanetUpdate) (db : Db) (current_user : User)
    (now : Z) : Result Planet * Db :=
  match query_planet db pid with
  | None =>
      (Raise {| status_code := 404; detail := "Planet not found"; headers := [] |},
       db)
  | Some db_planet =>
      let pending := setattrs planet_update db_planet in
      commit_update db db_planet pending now
  end.

(** The handler of [DELETE /planets/{planet_id}] from the point where
    its first query has bound the key; [delete_planet_route] below is the
    whole request. *)
Definition delete_planet (pid : Z) (db : Db) (current_user : User)
  : Result unit * Db :=
  match query_planet db pid with
  | None =>
      (Raise {| status_code := 404; detail := "Planet not found"; headers := [] |},
       db)
  | Some db_planet =>
      (Return (),
       {| planets := filter (λ q, planet_id q ≠ planet_id db_planet) (planets db);
          users := users db |})
  end.

(** *** Routes: the guard, then the handler *)

Definition guarded {A}
    (authorization : option string) (db : Db) (now : Z)
    (handler : User → Result A * Db) : Result A * Db :=
  match current_user_dependency authorization db now with
  | Return current_user => handler current_user
  | Raise e => (Raise e, db)
  | Fault w => (Fault w, db)
  end.

(** [POST /planets], 201 on success. *)
Definition post_planets
    (authorization : option string) (planet : PlanetCreate) (db : Db) (now : Z)
  : Result Planet * Db :=
  guarded authorization db now (λ u, create_planet planet db u now).

(** The query that opens each handler with a [planet_id]: the key is
    bound first, and nothing has been written when that fails. *)
Definition with_bound_id {A}
    (pid : Z) (db : Db) (handler : Z → Result A * Db) : Result A * Db :=
  match bind_integer pid with
  | Return key => handler key
  | Raise e => (Raise e, db)
  | Fault w => (Fault w, db)
  end.

(** [PUT /planets/{planet_id}], 200 on success. *)
Definition put_planet
    (authorization : option string) (pid : Z) (planet_update : PlanetUpdate)
    (db : Db) (now : Z) : Result Planet * Db :=
  guarded authorization db now
    (λ u, with_bound_id pid db (λ key, update_planet key planet_update db u now)).

(** [DELETE /planets/{planet_id}], 204 on success. *)
Definition delete_planet_route
    (authorization : option string) (pid : Z) (db : Db) (now : Z)
  : Result unit * Db :=
  guarded authorization db now
    (λ u, with_bound_id pid db (λ key, delete_planet key db u)).

(** [POST /auth/login]. *)
Definition login (uname password : string) (db : Db) (now : Z)
  : Result (gmap string string) :=
  match authenticate_user db uname password with
  | None =>
      Raise {| status_code := 401;
               detail := "Incorrect username or password";
               headers := [("WWW-Authenticate", "Bearer")] |}
  | Some user =>
      let access_token_expires := Py.minutes 30 in
      let access_token :=
        create_access_token {["sub" := ClaimStr (username user)]}
                            (Some access_token_expires) now in
      Return (<["token_type" := "bearer"]> {["access_token" := access_token]})
  end.

(** [GET /auth/me]. *)
Definition get_current_user_info
    (authorization : option string) (db : Db) (now : Z) : Result User :=
  current_user_dependency authorization db now.

(** *** Read routes *)

(** [GET /planets]: [db.query(Planet).all()]. *)
Definition get_planets (db : Db) : list Planet := planets db.

(** The handler of [GET /planets/{planet_id}] from the point where its
    query has bound the key, 200 on success. *)
Definition get_planet (pid : Z) (db : Db) : Result Planet :=
  match query_planet db pid with
  | None =>
      Raise {| status_code := 404; detail := "Planet not found"; headers := [] |}
  | Some planet => Return planet
  end.

(** [GET /planets/{planet_id}], the whole request. *)
Definition get_planet_route (pid : Z) (db : Db) : Result Planet :=
  key ← bind_integer pid;
  get_planet key db.

End app.
End FastApi.

(** ** Variant 2: flask_app.py (Flask) *)

Module FlaskApp.

Definition SECRET_KEY : string := "your-secret-key-change-in-production".
Definition ALGORITHM : string := "HS256".
Definition ACCESS_TOKEN_EXPIRE_MINUTES : Z := 30.

(** A scalar JSON value as [request.get_json()] delivers it and as the
    planet dictionaries store it.  A number is an [int] or a [float]:
    [1e16] is read as a float, [10000000000000000] as an int.  A float is
    given by its exact value; the JSON texts [NaN] and [Infinity], which
    Python also reads, are left out. *)
Inductive json : Type :=
| JNull
| JBool (b : bool)
| JInt (z : Z)
| JFloat (q : Qc)
| JStr (s : string).

Global Instance json_eq_dec : EqDecision json.
Proof. solve_decision. Defined.

Definition Z2Qc (z : Z) : Qc := Q2Qc (inject_Z z).

(** The number a value counts as in a comparison: [True] is 1 and
    [False] is 0, and an int and a float are compared by their exact
    values. *)
Definition json_num (v : json) : option Qc :=
  match v with
  | JInt z => Some (Z2Qc z)
  | JFloat q => Some q
  | JBool b => Some (if b then Z2Qc 1 else Z2Qc 0)
  | JNull | JStr _ => None
  end.

(** Python's [==] on these values. *)
Definition py_eq (v w : json) : bool :=
  match v, w with
  | JNull, JNull => true
  | JStr s, JStr t => bool_decide (s = t)
  | _, _ =>
      match json_num v, json_num w with
      | Some a, Some b => bool_decide (a = b)
      | _, _ => false
      end
  end.

(** One step of [max] over the items, each with the number it counts
    as: a later item takes the place of the largest so far only when it is
    greater, so of two items that compare equal the first is kept. *)
Definition max_step (best item : json * Qc) : json * Qc :=
  if Qclt_le_dec (snd best) (snd item) then item else best.

(** [x + 1]: exact on an int (a bool counts as one), rounded on a float;
    a [TypeError] on anything else. *)
Definition add_one (x : json) : option json :=
  match x with
  | JInt z => Some (JInt (z + 1))
  | JBool b => Some (JInt ((if b then 1 else 0) + 1))
  | JFloat q => Some (JFloat (Py.float_add q (Z2Qc 1)))
  | JNull | JStr _ => None
  end.

(** [v is not None]. *)
Definition is_not_none (v : json) : bool :=
  match v with JNull => false | _ => true end.

(** [datetime.isoformat()] of a clock reading. *)
Definition isoformat (t : Z) : string := pretty t.

(** An entry of [users_db]: a dictionary with these six keys. *)
Record User := {
  user_id : Z;
  username : string;
  email : string;
  hashed_password : string;
  is_active : bool;
  user_created_at : string
}.

(** The two module-level lists.  A planet is a dictionary; the handlers
    read its keys ["id"] and ["name"], which [init_data] and
    [create_planet] always set and [update_planet] never removes; a
    dictionary without the key matches no lookup. *)
Record State := {
  planets_db : list (gmap string json);
  users_db : list User
}.

Inductive Body : Type :=
| JsonObject (o : gmap string json)
| Text (s : string).

(** What a view returns: the body and the status code (200 when the
    view gives none). *)
Record Response := {
  status : Z;
  body : Body
}.

(** The answer to an exception that no view catches. *)
Definition internal_server_error : Response :=
  {| status := 500; body := Text "Internal Server Error" |}.

Definition message (text : string) (code : Z) : Response :=
  {| status := code; body := JsonObject {["message" := JStr text]} |}.

Definition detail_response (text : string) (code : Z) : Response :=
  {| status := code; body := JsonObject {["detail" := JStr text]} |}.

Section app.
Context `{!JwtLib, !CryptContext}.

Definition verify_password (plain_password hashed_password : string) : bool :=
  pwd_verify plain_password hashed_password.

Definition get_password_hash (salt password : string) : string :=
  pwd_hash salt password.

Definition create_access_token
    (data : gmap string claim) (expires_delta : option Z) (utcnow : Z) : string :=
  let to_encode := data in
  let expire :=
    match expires_delta with
    | Some delta =>
        if Py.timedelta_bool delta then utcnow + delta
        else utcnow + Py.minutes ACCESS_TOKEN_EXPIRE_MINUTES
    | None => utcnow + Py.minutes ACCESS_TOKEN_EXPIRE_MINUTES
    end in
  let to_encode := <["exp" := ClaimTime expire]> to_encode in
  jwt_encode to_encode SECRET_KEY ALGORITHM.

(** [None] is the function's own failure value.  As in the other
    variant, the library refuses a [sub] that is not text. *)
Definition verify_token (token : string) (now : Z) : option string :=
  match jwt_decode token SECRET_KEY [ALGORITHM] now with
  | Some payload =>
      match payload !! "sub" with
      | Some (ClaimStr uname) => Some uname
      | Some (ClaimTime _) => None
      | None => None
      end
  | None => None
  end.

(** [next((u for u in users_db if u['username'] == username), None)]. *)
Definition find_user (st : State) (uname : string) : option User :=
  first_with username uname (users_db st).

(** The decorator.  [authorization] is the request's [Authorization]
    header if it has one; [f] is the decorated view, which receives the
    user found. *)
Definition token_required
    (f : User → State → Z → Response * State)
    (authorization : option string) (st : State) (now : Z)
  : Response * State :=
  let missing := (message "Token is missing" 401, st) in
  let with_token (token : option string) :=
    match token with
    | None => missing
    | Some tok =>
        if negb (Py.str_bool tok) then missing
        else
          match verify_token tok now with
          | None => (message "Token is invalid" 401, st)
          | Some uname =>
              if negb (Py.str_bool uname) then (message "Token is invalid" 401, st)
              else
                match find_user st uname with
                | None => (message "User not found" 401, st)
                | Some current_user => f current_user st now
                end
          end
    end in
  match authorization with
  | Some auth_header =>
      match Py.split_space auth_header !! 1%nat with
      | Some tok => with_token (Some tok)
      | None => missing
      end
  | None => with_token None
  end.

(** *** Planet views *)

Definition has_id (pid : Z) (p : gmap string json) : bool :=
  match p !! "id" with
  | Some v => py_eq v (JInt pid)
  | None => false
  end.

Definition has_name (nm : json) (p : gmap string json) : bool :=
  match p !! "name" with
  | Some v => py_eq v nm
  | None => false
  end.

(** [next((p for p in planets_db if p['id'] == planet_id), None)],
    with the position of the dictionary found: the views change that
    very object. *)
Definition find_planet (st : State) (pid : Z)
  : option (nat * gmap string json) :=
  list_find (λ p, has_id pid p = true) (planets_db st).

(** [max([p['id'] for p in planets_db], default=0) + 1]; [None] when
    some id is not a number, where Python raises a [TypeError].  The
    result is an int when the largest id is one, and a float, the rounded
    sum, when the largest id is a float. *)
Definition new_planet_id (st : State) : option json :=
  ids ← mapM (λ p, v ← p !! "id"; q ← json_num v; Some (v, q)) (planets_db st);
  match ids with
  | [] => add_one (JInt 0)
  | x :: ids' => add_one (fst (foldl max_step x ids'))
  end.

(** [POST /planets].  [data] is the JSON object of the request body.
    A missing required key is a [KeyError] and an id that is not a
    number a [TypeError]: both are answered with 500. *)
Definition create_planet
    (data : gmap string json) (current_user : User) (st : State) (now : Z)
  : Response * State :=
  match data !! "name" with
  | None => (internal_server_error, st)
  | Some nm =>
      match list_find (λ p, has_name nm p = true) (planets_db st) with
      | Some existing =>
          (detail_response "Planet with this name already exists" 400, st)
      | None =>
          match
            new_id ← new_planet_id st;
            ty ← data !! "planet_type";
            dist ← data !! "distance_from_sun";
            rad ← data !! "radius";
            Some (list_to_map
                    [("id", new_id);
                     ("name", nm);
                     ("planet_type", ty);
                     ("distance_from_sun", dist);
                     ("radius", rad);
                     ("description", default JNull (data !! "description"));
                     ("mass", default JNull (data !! "mass"));
                     ("orbital_period", default JNull (data !! "orbital_period"));
                     ("created_at", JStr (isoformat now));
                     ("updated_at", JStr (isoformat now))]
                  : gmap string json)
          with
          | None => (internal_server_error, st)
          | Some new_planet =>
              ({| status := 201; body := JsonObject new_planet |},
               {| planets_db := planets_db st ++ [new_planet];
                  users_db := users_db st |})
          end
      end
  end.

(** One turn of the loop [for field, value in data.items()]. *)
Definition update_field (field : string) (value : json) (planet : gmap string json)
  : gmap string json :=
  if decide (is_Some (planet !! field)) then
    if is_not_none value then <[field := value]> planet else planet
  else planet.

(** The whole loop, over the items of [data]. *)
Definition update_fields (data planet : gmap string json) : gmap string json :=
  map_fold update_field planet data.

(** [PUT /planets/<planet_id>].  The dictionary found is an element of
    [planets_db] and is changed in place. *)
Definition update_planet
    (pid : Z) (data : gmap string json) (current_user : User) (st : State)
    (now : Z) : Response * State :=
  match find_planet st pid with
  | None => (detail_response "Planet not found" 404, st)
  | Some (i, planet) =>
      let planet := update_fields data planet in
      let planet := <["updated_at" := JStr (isoformat now)]> planet in
      ({| status := 200; body := JsonObject planet |},
       {| planets_db := <[i := planet]> (planets_db st);
          users_db := users_db st |})
  end.

(** [DELETE /planets/<planet_id>]. *)
Definition delete_planet
    (pid : Z) (current_user : User) (st : State) (now : Z) : Response * State :=
  match find_planet st pid with
  | None => (detail_response "Planet not found" 404, st)
  | Some _ =>
      ({| status := 204; body := Text "" |},
       {| planets_db := filter (λ p, has_id pid p = false) (planets_db st);
          users_db := users_db st |})
  end.

(** The three guarded routes. *)
Definition post_planets
    (authorization : option string) (data : gmap string json) (st : State)
    (now : Z) : Response * State :=
  token_required (create_planet data) authorization st now.

Definition put_planet
    (authorization : option string) (pid : Z) (data : gmap string json)
    (st : State) (now : Z) : Response * State :=
  token_required (update_planet pid data) authorization st now.

Definition delete_planet_route
    (authorization : option string) (pid : Z) (st : State) (now : Z)
  : Response * State :=
  token_required (delete_planet pid) authorization st now.

(** [POST /auth/login] with the two strings of the request body. *)
Definition login (uname password : string) (st : State) (now : Z) : Response :=
  match find_user st uname with
  | None => detail_response "Incorrect username or password" 401
  | Some user =>
      if negb (verify_password password (hashed_password user)) then
        detail_response "Incorrect username or password" 401
      else
        let access_token_expires := Py.minutes ACCESS_TOKEN_EXPIRE_MINUTES in
        let access_token :=
          create_access_token {["sub" := ClaimStr (username user)]}
                              (Some access_token_expires) now in
        {| status := 200;
           body := JsonObject (<["token_type" := JStr "bearer"]>
                                 {["access_token" := JStr access_token]}) |}
  end.

(** [GET /auth/me]: the user's entry without its password hash. *)
Definition get_current_user_info
    (authorization : option string) (st : State) (now : Z) : Response * State :=
  token_required
    (λ current_user st _,
       ({| status := 200;
           body := JsonObject
                     (list_to_map
                        [("id", JInt (user_id current_user));
                         ("username", JStr (username current_user));
                         ("email", JStr (email current_user));
                         ("is_active", JBool (is_active current_user));
                         ("created_at", JStr (user_created_at current_user))]) |},
        st))
    authorization st now.

(** *** Read routes *)

(** [GET /planets]: the list that [jsonify(planets_db)] writes out. *)
Definition get_planets (st : State) : list (gmap string json) := planets_db st.

(** [GET /planets/<planet_id>]. *)
Definition get_planet (pid : Z) (st : State) : Response :=
  match find_planet st pid with
  | None => detail_response "Planet not found" 404
  | Some (_, planet) => {| status := 200; body := JsonObject planet |}
  end.

(** *** [init_data] *)

(** The dictionary the loop of [init_data] builds for the [i]-th record
    of the seed file, or [None] where the record lacks one of the five
    keys read with [planet_data[...]] (a [KeyError]). *)
Definition seed_planet (i : Z) (planet_data : gmap string json) (now : Z)
  : option (gmap string json) :=
  nm ← planet_data !! "name";
  ty ← planet_data !! "planet_type";
  dist ← planet_data !! "distance_from_sun";
  rad ← planet_data !! "radius";
  desc ← planet_data !! "description";
  Some (list_to_map
          [("id", JInt i);
           ("name", nm);
           ("planet_type", ty);
           ("distance_from_sun", dist);
           ("radius", rad);
           ("description", desc);
           ("mass", default JNull (planet_data !! "mass"));
           ("orbital_period", default JNull (planet_data !! "orbital_period"));
           ("created_at", JStr (isoformat now));
           ("updated_at", JStr (isoformat now))]).

(** The loop [for i, planet_data in enumerate(data["planets"], 1)]:
    each dictionary is appended as soon as it is built, so the planets
    loaded before a record that raises stay in the list.  The result is
    the list and whether the loop came to its end. *)
Fixpoint load_planets
    (i : Z) (records : list (gmap string json)) (now : Z)
    (planets : list (gmap string json)) : list (gmap string json) * bool :=
  match records with
  | [] => (planets, true)
  | planet_data :: rest =>
      match seed_planet i planet_data now with
      | None => (planets, false)
      | Some planet => load_planets (i + 1) rest now (planets ++ [planet])
      end
  end.

Definition admin_user (salt : string) (now : Z) : User :=
  {| user_id := 1;
     username := "admin";
     email := "admin@planets.com";
     hashed_password := get_password_hash salt "admin123";
     is_active := true;
     user_created_at := isoformat now |}.

Definition test_user (salt : string) (now : Z) : User :=
  {| user_id := 2;
     username := "testuser";
     email := "test@planets.com";
     hashed_password := get_password_hash salt "test123";
     is_active := true;
     user_created_at := isoformat now |}.

(** [data] is the list under ["planets"] of the seed file, each record a
    JSON object; [None] when the file cannot be opened or parsed or has
    no such list, where the [try] block is left at once.  Any exception
    ends the function after a message, with the two lists as they are at
    that point.  The two salts are those the two calls of
    [get_password_hash] draw; the clock is read once. *)
Definition init_data
    (data : option (list (gmap string json))) (salt_admin salt_test : string)
    (st : State) (now : Z) : State :=
  match data with
  | None => st
  | Some records =>
      let '(planets, completed) := load_planets 1 records now (planets_db st) in
      if completed then
        {| planets_db := planets;
           users_db := users_db st ++ [admin_user salt_admin now;
                                       test_user salt_test now] |}
      else {| planets_db := planets; users_db := users_db st |}
  end.

End app.
End FlaskApp.

(** ** A reference implementation of the library interfaces

    A small codec and a small password context that meet the interfaces
    above.  They show that the laws of [JwtLib] can be met and let the
    handlers run on concrete requests.  The reference token is not the
    wire format of a JWT: it is the algorithm name, a dot, and the
    numbering of the pair (claims, key) written in binary. *)

Module Reference.

Fixpoint bits (p : positive) : string :=
  match p with
  | xH => EmptyString
  | xO p' => String "0" (bits p')
  | xI p' => String "1" (bits p')
  end.

Fixpoint unbits (s : string) : option positive :=
  match s with
  | EmptyString => Some xH
  | String c s' =>
      p ← unbits s';
      if Ascii.eqb c "0" then Some (xO p)
      else if Ascii.eqb c "1" then Some (xI p)
      else None
  end.

(** The text before the first dot and the text after it. *)
Fixpoint split_dot (s : string) : string * string :=
  match s with
  | EmptyString => (EmptyString, EmptyString)
  | String c s' =>
      if Ascii.eqb c "." then (EmptyString, s')
      else let '(a, b) := split_dot s' in (String c a, b)
  end.

Definition algorithms : list string := ["HS256"; "HS384"; "HS512"].

Definition encode_token (claims : gmap string claim) (key alg : string) : string :=
  alg +:+ "." +:+ bits (encode (claims, key)).

Definition decode_token
    (token key : string) (allowed : list string) (now : Z)
  : option (gmap string claim) :=
  let '(alg, rest) := split_dot token in
  if decide (alg ∈ algorithms ∧ alg ∈ allowed) then
    p ← unbits rest;
    '(claims, k) ← decode (A := gmap string claim * string) p;
    if decide (k = key) then
      match claims !! "exp" with
      | Some (ClaimTime exp) => if decide (now < exp) then Some claims else None
      | Some (ClaimStr _) => None
      | None => Some claims
      end
    else None
  else None.

(** The reference codec meets the interface.  The proof first shows
    that decoding undoes encoding up to the check of [exp]. *)
Definition jwt : JwtLib.
Proof.
  assert (∀ p, unbits (bits p) = Some p) as Hbits.
  { induction p as [p IH|p IH|]; simpl; rewrite ?IH; done. }
  assert (∀ claims key alg,
            alg ∈ algorithms →
            split_dot (encode_token claims key alg)
            = (alg, bits (encode (claims, key)))) as Hsplit.
  { intros claims key alg. unfold algorithms, encode_token.
    rewrite !elem_of_cons, elem_of_nil.
    intros [->|[->|[->|[]]]]; reflexivity. }
  assert (∀ claims key alg allowed now,
            alg ∈ algorithms → alg ∈ allowed →
            decode_token (encode_token claims key alg) key allowed now =
            match claims !! "exp" with
            | Some (ClaimTime exp) => if decide (now < exp) then Some claims else None
            | Some (ClaimStr _) => None
            | None => Some claims
            end) as Hround.
  { intros claims key alg allowed now Halg Hallowed. unfold decode_token.
    rewrite Hsplit by done. rewrite decide_True by done.
    rewrite Hbits. simpl. rewrite decode_encode. simpl.
    by rewrite decide_True. }
  refine {| jwt_encode := encode_token;
            jwt_decode := decode_token;
            jwt_algorithms := algorithms |}.
  - unfold algorithms. set_solver.
  - intros sub exp key alg allowed now Halg Hallowed Hnow.
    rewrite Hround by done. unfold access_claims.
    rewrite lookup_insert_eq. case_decide; [done | lia].
  - intros sub exp key alg allowed now Halg Hnow.
    destruct (decide (alg ∈ allowed)) as [Hallowed|Hallowed].
    + rewrite Hround by done. unfold access_claims.
      rewrite lookup_insert_eq. case_decide; [lia | done].
    + unfold decode_token. rewrite Hsplit by done.
      rewrite decide_False; [done | tauto].
  - intros key allowed now. unfold decode_token. cbn [split_dot].
    case_decide as Hin; [|done]. destruct Hin as [Hin _].
    unfold algorithms in Hin. set_solver.
Defined.

(** A digest is the salt, a dollar sign and the password. *)
Fixpoint after_dollar (s : string) : string :=
  match s with
  | EmptyString => EmptyString
  | String c s' => if Ascii.eqb c "$" then s' else after_dollar s'
  end.

Definition crypt : CryptContext := {|
  pwd_hash salt password := salt +:+ "$" +:+ password;
  pwd_verify plain hashed := bool_decide (after_dollar hashed = plain)
|}.

End Reference.

(** ** Vocabulary of the properties *)

Module FastApiSpec.
Import FastApi.

(** What [update_planet] leaves alone in a row: the key, the creation
    stamp, and every column the request body does not mention. *)
Definition untouched (planet_update : PlanetUpdate) (q q' : Planet) : Prop :=
  planet_id q' = planet_id q ∧
  created_at q' = created_at q ∧
  (set_name planet_update = None → name q' = name q) ∧
  (set_planet_type planet_update = None → planet_type q' = planet_type q) ∧
  (set_distance_from_sun planet_update = None →
     distance_from_sun q' = distance_from_sun q) ∧
  (set_radius planet_update = None → radius q' = radius q) ∧
  (set_description planet_update = None → description q' = description q) ∧
  (set_mass planet_update = None → mass q' = mass q) ∧
  (set_orbital_period planet_update = None → orbital_period q' = orbital_period q).

Definition not_found : HTTPException :=
  {| status_code := 404; detail := "Planet not found"; headers := [] |}.

Definition conflict : HTTPException :=
  {| status_code := 400; detail := "Planet with this name already exists";
     headers := [] |}.

(** The scheme of a header value: the text before its first space. *)
Definition header_scheme (value : string) : string :=
  fst (Py.partition_space value).

(** The frame of [update_planet] between two states of the database:
    the users and every row with another key are as before, and in the
    row addressed the key, the creation stamp and the columns left out of
    the request keep their values. *)
Definition update_frame (pid : Z) (planet_update : PlanetUpdate) (db db' : Db) : Prop :=
  users db' = users db ∧
  length (planets db') = length (planets db) ∧
  (∀ i q, planets db !! i = Some q → planet_id q ≠ pid →
          planets db' !! i = Some q) ∧
  (∀ i q, planets db !! i = Some q → query_planet db pid = Some q →
          ∃ q', planets db' !! i = Some q' ∧ untouched planet_update q q').

(** The same register with other [is_active] flags. *)
Definition with_active (flag : User → bool) (u : User) : User :=
  {| user_id := user_id u;
     username := username u;
     email := email u;
     hashed_password := hashed_password u;
     is_active := flag u;
     user_created_at := user_created_at u |}.

Definition reflag (flag : User → bool) (db : Db) : Db :=
  {| planets := planets db; users := with_active flag <$> users db |}.

(** The two uniqueness constraints of table [planets]: the primary key
    and the [unique=True] column [name]. *)
Definition unique_ids (db : Db) : Prop := NoDup (planet_id <$> planets db).

Definition unique_names (db : Db) : Prop := NoDup (name <$> planets db).

(** The row carries every value the request body gives. *)
Definition applied (planet_update : PlanetUpdate) (row : Planet) : Prop :=
  (∀ v, set_name planet_update = Some v → v = Some (name row)) ∧
  (∀ v, set_planet_type planet_update = Some v → v = Some (planet_type row)) ∧
  (∀ v, set_distance_from_sun planet_update = Some v →
        v = Some (distance_from_sun row)) ∧
  (∀ v, set_radius planet_update = Some v → v = Some (radius row)) ∧
  (∀ v, set_description planet_update = Some v → v = description row) ∧
  (∀ v, set_mass planet_update = Some v → v = mass row) ∧
  (∀ v, set_orbital_period planet_update = Some v → v = orbital_period row).

(** The row has the seven values of a create request. *)
Definition carries (planet : PlanetCreate) (row : Planet) : Prop :=
  name row = new_name planet ∧
  planet_type row = new_planet_type planet ∧
  distance_from_sun row = new_distance_from_sun planet ∧
  radius row = new_radius planet ∧
  description row = new_description planet ∧
  mass row = new_mass planet ∧
  orbital_period row = new_orbital_period planet.

End FastApiSpec.

Module FlaskSpec.
Import FlaskApp.

Definition not_found : Response := detail_response "Planet not found" 404.

Definition conflict : Response :=
  detail_response "Planet with this name already exists" 400.

Definition login_failed : Response :=
  detail_response "Incorrect username or password" 401.

(** What the loop over the request body leaves in a key of the planet:
    the value given, when the planet has the key and the value is not
    [null]; the old value otherwise. *)
Definition patched (data planet : gmap string json) (k : string) : option json :=
  match planet !! k, data !! k with
  | Some old, Some v => if is_not_none v then Some v else Some old
  | o, _ => o
  end.

(** The frame of the update view between two states: the users are as
    before; so is every planet but the one found; and in that one every
    key but ["updated_at"] holds [patched], so a key the body leaves out
    keeps its value. *)
Definition update_frame (pid : Z) (data : gmap string json) (st st' : State) : Prop :=
  users_db st' = users_db st ∧
  length (planets_db st') = length (planets_db st) ∧
  (∀ i, (∀ p, find_planet st pid ≠ Some (i, p)) →
        planets_db st' !! i = planets_db st !! i) ∧
  (∀ i p, find_planet st pid = Some (i, p) →
          ∃ p', planets_db st' !! i = Some p' ∧
                ∀ k, k ≠ "updated_at" →
                     p' !! k = p !! k ∨
                     (is_Some (p !! k) ∧ is_Some (data !! k) ∧ p' !! k = data !! k)).

Definition with_active (flag : User → bool) (u : User) : User :=
  {| user_id := user_id u;
     username := username u;
     email := email u;
     hashed_password := hashed_password u;
     is_active := flag u;
     user_created_at := user_created_at u |}.

Definition reflag (flag : User → bool) (st : State) : State :=
  {| planets_db := planets_db st; users_db := with_active flag <$> users_db st |}.

(** The ten keys of a planet dictionary. *)
Definition planet_keys : gset string :=
  list_to_set ["id"; "name"; "planet_type"; "distance_from_sun"; "radius";
               "description"; "mass"; "orbital_period"; "created_at"; "updated_at"].

Definition has_planet_keys (p : gmap string json) : Prop := dom p = planet_keys.

(** The five keys a record of the seed file must have. *)
Definition seedable (planet_data : gmap string json) : Prop :=
  is_Some (planet_data !! "name") ∧
  is_Some (planet_data !! "planet_type") ∧
  is_Some (planet_data !! "distance_from_sun") ∧
  is_Some (planet_data !! "radius") ∧
  is_Some (planet_data !! "description").

Global Instance seedable_dec planet_data : Decision (seedable planet_data).
Proof. unfold seedable. apply _. Defined.

(** The records of the seed file up to the first that cannot be
    loaded. *)
Fixpoint good_prefix (records : list (gmap string json)) : list (gmap string json) :=
  match records with
  | [] => []
  | planet_data :: rest =>
      if decide (seedable planet_data) then planet_data :: good_prefix rest else []
  end.

Section guard.
Context `{!JwtLib}.

(** The requests the decorator lets through, and as which user: the
    header has a second field, which is a token that decodes to a subject
    that is not empty and names an entry of [users_db]. *)
Definition accepted
    (authorization : option string) (st : State) (now : Z) (u : User) : Prop :=
  ∃ header token uname,
    authorization = Some header ∧
    Py.split_space header !! 1%nat = Some token ∧
    Py.str_bool token = true ∧
    verify_token token now = Some uname ∧
    Py.str_bool uname = true ∧
    find_user st uname = Some u.

Definition login_ok (u : User) (now : Z) : Response :=
  {| status := 200;
     body :=
       JsonObject
         (<["token_type" := JStr "bearer"]>
            {["access_token" :=
                JStr (jwt_encode (access_claims (username u) (now + 1800))
                                 SECRET_KEY ALGORITHM)]}) |}.

End guard.
End FlaskSpec.

(** ** Sample data

    A register with an active and a deactivated user, two planets, and
    tokens of the reference codec, for running the handlers. *)

Module Sample.

Definition testuser : FastApi.User :=
  {| FastApi.user_id := 1;
     FastApi.username := "testuser";
     FastApi.email := "test@planets.com";
     FastApi.hashed_password := "salt$testpass123";
     FastApi.is_active := true;
     FastApi.user_created_at := 0 |}.

Definition retired : FastApi.User :=
  {| FastApi.user_id := 2;
     FastApi.username := "retired";
     FastApi.email := "retired@planets.com";
     FastApi.hashed_password := "pepper$oldpass";
     FastApi.is_active := false;
     FastApi.user_created_at := 0 |}.

Definition planet1 : FastApi.Planet :=
  {| FastApi.planet_id := 1;
     FastApi.name := "Test Planet 1";
     FastApi.planet_type := "Terrestrial";
     FastApi.distance_from_sun := Q2Qc 1;
     FastApi.radius := Q2Qc 6371;
     FastApi.description := Some "A test terrestrial planet";
     FastApi.mass := None;
     FastApi.orbital_period := Some (Q2Qc (36525 # 100));
     FastApi.created_at := 0;
     FastApi.updated_at := 0 |}.

Definition planet2 : FastApi.Planet :=
  {| FastApi.planet_id := 2;
     FastApi.name := "Test Planet 2";
     FastApi.planet_type := "Gas Giant";
     FastApi.distance_from_sun := Q2Qc (52 # 10);
     FastApi.radius := Q2Qc 69911;
     FastApi.description := Some "A test gas giant planet";
     FastApi.mass := None;
     FastApi.orbital_period := None;
     FastApi.created_at := 0;
     FastApi.updated_at := 0 |}.

Definition db : FastApi.Db :=
  {| FastApi.planets := [planet1; planet2];
     FastApi.users := [testuser; retired] |}.

(** A body for [POST /planets] that reuses the name of [planet1]. *)
Definition duplicate : FastApi.PlanetCreate :=
  {| FastApi.new_name := "Test Planet 1";
     FastApi.new_planet_type := "Terrestrial";
     FastApi.new_distance_from_sun := Q2Qc (15 # 10);
     FastApi.new_radius := Q2Qc 5000;
     FastApi.new_description := Some "A duplicate planet";
     FastApi.new_mass := None;
     FastApi.new_orbital_period := None |}.

(** The body [{"description": "Updated description"}]. *)
Definition redescribe : FastApi.PlanetUpdate :=
  {| FastApi.set_name := None;
     FastApi.set_planet_type := None;
     FastApi.set_distance_from_sun := None;
     FastApi.set_radius := None;
     FastApi.set_description := Some (Some "Updated description");
     FastApi.set_mass := None;
     FastApi.set_orbital_period := None |}.

(** Tokens that are good until second 2000. *)
Definition token_for (key sub : string) : string :=
  Reference.encode_token (access_claims sub 2000) key "HS256".

Definition bearer (token : string) : string := "Bearer " +:+ token.

Definition flask_testuser : FlaskApp.User :=
  {| FlaskApp.user_id := 2;
     FlaskApp.username := "testuser";
     FlaskApp.email := "test@planets.com";
     FlaskApp.hashed_password := "salt$test123";
     FlaskApp.is_active := true;
     FlaskApp.user_created_at := "0" |}.

Definition flask_retired : FlaskApp.User :=
  {| FlaskApp.user_id := 3;
     FlaskApp.username := "retired";
     FlaskApp.email := "retired@planets.com";
     FlaskApp.hashed_password := "pepper$oldpass";
     FlaskApp.is_active := false;
     FlaskApp.user_created_at := "0" |}.

Definition flask_planet (pid : Z) (nm : string) : gmap string FlaskApp.json :=
  list_to_map
    [("id", FlaskApp.JInt pid);
     ("name", FlaskApp.JStr nm);
     ("planet_type", FlaskApp.JStr "Terrestrial");
     ("distance_from_sun", FlaskApp.JFloat (Q2Qc 1));
     ("radius", FlaskApp.JFloat (Q2Qc 6371));
     ("description", FlaskApp.JStr "A test planet");
     ("mass", FlaskApp.JNull);
     ("orbital_period", FlaskApp.JNull);
     ("created_at", FlaskApp.JStr "0");
     ("updated_at", FlaskApp.JStr "0")].

Definition flask_state : FlaskApp.State :=
  {| FlaskApp.planets_db := [flask_planet 1 "Test Planet 1"; flask_planet 2 "Test Planet 2"];
     FlaskApp.users_db := [flask_testuser; flask_retired] |}.

(** A view that only reports who was let through. *)
Definition whoami (u : FlaskApp.User) (st : FlaskApp.State) (now : Z)
  : FlaskApp.Response * FlaskApp.State :=
  ({| FlaskApp.status := 200;
      FlaskApp.body := FlaskApp.Text (FlaskApp.username u) |}, st).

(** What the two update handlers give for the body
    [{"description": "Updated description"}] sent for planet 1. *)
Definition updated : Result FastApi.Planet * FastApi.Db :=
  FastApi.update_planet 1 redescribe db testuser 1000.

Definition flask_redescribe : gmap string FlaskApp.json :=
  {["description" := FlaskApp.JStr "Updated description"]}.

Definition flask_updated : FlaskApp.Response * FlaskApp.State :=
  FlaskApp.update_planet 1 flask_redescribe flask_testuser flask_state 1000.

(** A body for [POST /planets] with a name that no planet has, and the
    row it is stored as at second 1000. *)
Definition fresh : FastApi.PlanetCreate :=
  {| FastApi.new_name := "New Planet";
     FastApi.new_planet_type := "Ice Giant";
     FastApi.new_distance_from_sun := Q2Qc (192 # 10);
     FastApi.new_radius := Q2Qc 25362;
     FastApi.new_description := None;
     FastApi.new_mass := Some (Q2Qc (145 # 10));
     FastApi.new_orbital_period := None |}.

Definition fresh_row : FastApi.Planet :=
  {| FastApi.planet_id := 3;
     FastApi.name := "New Planet";
     FastApi.planet_type := "Ice Giant";
     FastApi.distance_from_sun := Q2Qc (192 # 10);
     FastApi.radius := Q2Qc 25362;
     FastApi.description := None;
     FastApi.mass := Some (Q2Qc (145 # 10));
     FastApi.orbital_period := None;
     FastApi.created_at := 1000;
     FastApi.updated_at := 1000 |}.

(** [planet1] after [redescribe] at second 1000. *)
Definition planet1_redescribed : FastApi.Planet :=
  {| FastApi.planet_id := 1;
     FastApi.name := "Test Planet 1";
     FastApi.planet_type := "Terrestrial";
     FastApi.distance_from_sun := Q2Qc 1;
     FastApi.radius := Q2Qc 6371;
     FastApi.description := Some "Updated description";
     FastApi.mass := None;
     FastApi.orbital_period := Some (Q2Qc (36525 # 100));
     FastApi.created_at := 0;
     FastApi.updated_at := 1000 |}.

(** The body [{"name": "Test Planet 1", "mass": null}], which repeats
    what [planet1] holds. *)
Definition same_values : FastApi.PlanetUpdate :=
  {| FastApi.set_name := Some (Some "Test Planet 1");
     FastApi.set_planet_type := None;
     FastApi.set_distance_from_sun := None;
     FastApi.set_radius := None;
     FastApi.set_description := None;
     FastApi.set_mass := Some None;
     FastApi.set_orbital_period := None |}.

(** Request bodies for the Flask create view: one with the four required
    keys and a new name, one with a new name only. *)
Definition flask_fresh : gmap string FlaskApp.json :=
  list_to_map
    [("name", FlaskApp.JStr "New Planet");
     ("planet_type", FlaskApp.JStr "Ice Giant");
     ("distance_from_sun", FlaskApp.JFloat (Q2Qc (192 # 10)));
     ("radius", FlaskApp.JFloat (Q2Qc 25362));
     ("mass", FlaskApp.JFloat (Q2Qc (145 # 10)))].

Definition flask_name_only : gmap string FlaskApp.json :=
  {["name" := FlaskApp.JStr "New Planet"]}.

(** The dictionary stored for [flask_fresh] at second 1000 when the
    largest id in use is 2. *)
Definition flask_fresh_planet : gmap string FlaskApp.json :=
  list_to_map
    [("id", FlaskApp.JInt 3);
     ("name", FlaskApp.JStr "New Planet");
     ("planet_type", FlaskApp.JStr "Ice Giant");
     ("distance_from_sun", FlaskApp.JFloat (Q2Qc (192 # 10)));
     ("radius", FlaskApp.JFloat (Q2Qc 25362));
     ("description", FlaskApp.JNull);
     ("mass", FlaskApp.JFloat (Q2Qc (145 # 10)));
     ("orbital_period", FlaskApp.JNull);
     ("created_at", FlaskApp.JStr "1000");
     ("updated_at", FlaskApp.JStr "1000")].

(** Records of a seed file: the third has no description. *)
Definition seed_record (nm : string) (described : bool) : gmap string FlaskApp.json :=
  list_to_map
    ([("name", FlaskApp.JStr nm);
      ("planet_type", FlaskApp.JStr "Terrestrial");
      ("distance_from_sun", FlaskApp.JFloat (Q2Qc 1));
      ("radius", FlaskApp.JFloat (Q2Qc 6371))]
     ++ if described then [("description", FlaskApp.JStr "A rocky planet")] else []).

Definition seed_records : list (gmap string FlaskApp.json) :=
  [seed_record "Mercury" true; seed_record "Venus" true;
   seed_record "Earth" false; seed_record "Mars" true].

(** A list whose only planet has the float [1e16] for its id, as after
    [PUT /planets/1] with the body [{"id": 1e16}]. *)
Definition flask_float_planet : gmap string FlaskApp.json :=
  <["id" := FlaskApp.JFloat (FlaskApp.Z2Qc (10 ^ 16))]>
    (flask_planet 1 "Test Planet 1").

Definition flask_float_state : FlaskApp.State :=
  {| FlaskApp.planets_db := [flask_float_planet];
     FlaskApp.users_db := [flask_testuser; flask_retired] |}.

(** The two lists as the module starts with them. *)
Definition flask_start : FlaskApp.State :=
  {| FlaskApp.planets_db := []; FlaskApp.users_db := [] |}.

End Sample.

(** * Properties *)

(** ** Lookups by a unique column *)

Section first_match.
Context {A B : Type} `{EqDecision B} (f : A → B).

Lemma first_with_cons b a l :
  first_with f b (a :: l) = if decide (f a = b) then Some a else first_with f b l.
Proof.
  unfold first_with. simpl. case_decide; [done|].
  by destruct (list_find _ l) as [[? ?]|].
Qed.

Lemma first_with_Some b l x : first_with f b l = Some x → x ∈ l ∧ f x = b.
Proof.
  induction l as [|a l IH]; [done|].
  rewrite first_with_cons. case_decide.
  - intros [= ->]. split; [left | done].
  - intros Hx. destruct (IH Hx). split; [by right | done].
Qed.

Lemma first_with_None b l : first_with f b l = None ↔ ∀ x, x ∈ l → f x ≠ b.
Proof.
  induction l as [|a l IH].
  - split; [|done]. intros _ x Hx. by apply elem_of_nil in Hx.
  - rewrite first_with_cons. case_decide as Ha.
    + split; [done|]. intros Hall. destruct (Hall a); [left | done].
    + rewrite IH. split.
      * intros Hall x [->|Hx]%elem_of_cons; [done | by apply Hall].
      * intros Hall x Hx. apply Hall. by right.
Qed.

Lemma first_with_is_Some b l x : x ∈ l → f x = b → is_Some (first_with f b l).
Proof.
  intros Hx Hb. destruct (first_with f b l) eqn:E; [done|].
  by destruct (proj1 (first_with_None b l) E x).
Qed.

(** With a unique column the first match is the only one. *)
Lemma first_with_unique b l x :
  NoDup (f <$> l) → x ∈ l → f x = b → first_with f b l = Some x.
Proof.
  induction l as [|a l IH]; intros Hnd Hx Hb.
  - by apply elem_of_nil in Hx.
  - rewrite fmap_cons in Hnd. apply NoDup_cons in Hnd as [Ha Hnd].
    rewrite first_with_cons. apply elem_of_cons in Hx as [->|Hx].
    + by rewrite decide_True.
    + rewrite decide_False; [by apply IH|].
      intros Hab. apply Ha. rewrite Hab, <- Hb.
      by apply list_elem_of_fmap_2.
Qed.

End first_match.

(** ** app.py *)

Module FastApiFacts.
Import FastApi FastApiSpec.

Section facts.
Context `{!JwtLib, !CryptContext}.

(** *** Credentials *)

Lemma authenticate_user_Some db uname password u :
  NoDup (username <$> users db) →
  authenticate_user db uname password = Some u ↔
  u ∈ users db ∧ username u = uname ∧
  verify_password password (hashed_password u) = true.
Proof.
  intros Hnd. unfold authenticate_user, query_user.
  split.
  - destruct (first_with username uname (users db)) as [v|] eqn:E; [|done].
    apply first_with_Some in E as [Hin Hname].
    destruct (verify_password password (hashed_password v)) eqn:Hv; [|done].
    simpl. by intros [= <-].
  - intros (Hin & Hname & Hv).
    rewrite (first_with_unique username uname (users db) u) by done.
    by rewrite Hv.
Qed.

Lemma authenticate_user_None db uname password :
  authenticate_user db uname password = None ↔
  first_with username uname (users db) = None ∨
  ∃ u, first_with username uname (users db) = Some u ∧
       verify_password password (hashed_password u) = false.
Proof.
  unfold authenticate_user, query_user.
  destruct (first_with username uname (users db)) as [v|]; [|naive_solver].
  destruct (verify_password password (hashed_password v)) eqn:Hv; simpl.
  - split; [done|]. intros [?|(u & [= <-] & Hu)]; congruence.
  - split; [|done]. intros _. right. by exists v.
Qed.

(** *** Tokens *)

Lemma create_access_token_nonzero sub delta now :
  delta ≠ 0 →
  create_access_token {["sub" := ClaimStr sub]} (Some delta) now =
  jwt_encode (access_claims sub (now + delta)) SECRET_KEY ALGORITHM.
Proof.
  intros Hd. unfold create_access_token, Py.timedelta_bool.
  by rewrite (proj2 (Z.eqb_neq delta 0) Hd).
Qed.

Lemma create_access_token_default sub now :
  create_access_token {["sub" := ClaimStr sub]} None now =
  jwt_encode (access_claims sub (now + 1800)) SECRET_KEY ALGORITHM.
Proof. reflexivity. Qed.

Lemma create_access_token_zero sub now :
  create_access_token {["sub" := ClaimStr sub]} (Some 0) now =
  jwt_encode (access_claims sub (now + 1800)) SECRET_KEY ALGORITHM.
Proof. reflexivity. Qed.

Lemma access_claims_sub sub exp : access_claims sub exp !! "sub" = Some (ClaimStr sub).
Proof. unfold access_claims. by rewrite lookup_insert_ne, lookup_singleton_eq. Qed.

Lemma verify_token_fresh sub exp exc now :
  now < exp →
  verify_token (jwt_encode (access_claims sub exp) SECRET_KEY ALGORITHM) exc now
  = Return sub.
Proof.
  intros Hnow. unfold verify_token.
  rewrite jwt_decode_fresh; [|apply jwt_hs256|by left|done].
  by rewrite access_claims_sub.
Qed.

Lemma verify_token_expired sub exp exc now :
  exp < now →
  verify_token (jwt_encode (access_claims sub exp) SECRET_KEY ALGORITHM) exc now
  = Raise exc.
Proof.
  intros Hnow. unfold verify_token.
  by rewrite jwt_decode_expired; [|apply jwt_hs256|].
Qed.

Lemma verify_token_Return token exc now uname :
  verify_token token exc now = Return uname ↔
  ∃ payload, jwt_decode token SECRET_KEY [ALGORITHM] now = Some payload ∧
             payload !! "sub" = Some (ClaimStr uname).
Proof.
  unfold verify_token.
  destruct (jwt_decode token SECRET_KEY [ALGORITHM] now) as [payload|].
  - destruct (payload !! "sub") as [[s|t]|] eqn:E.
    + split; [intros [= <-]; by exists payload | intros (p & [= <-] & Hp); congruence].
    + split; [done | intros (p & [= <-] & Hp); congruence].
    + split; [done | intros (p & [= <-] & Hp); congruence].
  - split; [done | by intros (p & ? & _)].
Qed.

Lemma verify_token_cases token exc now :
  (∃ uname, verify_token token exc now = Return uname) ∨
  verify_token token exc now = Raise exc.
Proof.
  unfold verify_token.
  destruct (jwt_decode token SECRET_KEY [ALGORITHM] now) as [payload|]; [|by right].
  destruct (payload !! "sub") as [[s|t]|]; eauto.
Qed.

(** *** The bearer dependency *)

Lemma HTTPBearer_missing :
  HTTPBearer None =
  Raise {| status_code := 403; detail := "Not authenticated"; headers := [] |}.
Proof. reflexivity. Qed.

Lemma HTTPBearer_bearer token :
  token ≠ EmptyString →
  HTTPBearer (Some ("Bearer " +:+ token)) =
  Return {| scheme := "Bearer"; credentials := token |}.
Proof. intros Htok. unfold HTTPBearer. simpl. by destruct token. Qed.

Lemma HTTPBearer_Raise authorization e :
  HTTPBearer authorization = Raise e → status_code e = 403.
Proof.
  unfold HTTPBearer. destruct authorization as [value|]; [|by intros [= <-]].
  destruct (Py.partition_space value) as [sch cred].
  repeat case_match; by intros [= <-].
Qed.

Lemma HTTPBearer_other_scheme value :
  Py.lower (header_scheme value) ≠ "bearer" →
  ∃ e, HTTPBearer (Some value) = Raise e ∧ status_code e = 403.
Proof.
  unfold header_scheme, HTTPBearer. intros Hsch.
  destruct (Py.partition_space value) as [sch cred]. simpl in Hsch.
  destruct (negb (Py.str_bool sch && Py.str_bool cred)); [by eexists|].
  destruct (String.eqb (Py.lower sch) "bearer") eqn:E.
  - by apply String.eqb_eq in E.
  - by eexists.
Qed.

Lemma HTTPBearer_no_fault authorization w : HTTPBearer authorization ≠ Fault w.
Proof.
  unfold HTTPBearer. destruct authorization as [value|]; [|done].
  destruct (Py.partition_space value) as [sch cred]. by repeat case_match.
Qed.

(** *** The guard *)

Lemma get_current_user_cases creds db now :
  (∃ u, get_current_user creds db now = Return u ∧ u ∈ users db) ∨
  get_current_user creds db now = Raise credentials_exception.
Proof.
  unfold get_current_user.
  destruct (verify_token_cases (credentials creds) credentials_exception now)
    as [[uname ->]| ->]; [|by right].
  simpl. unfold query_user.
  destruct (first_with username uname (users db)) as [u|] eqn:E; [|by right].
  left. exists u. split; [done|]. by apply first_with_Some in E as [? _].
Qed.

(** The guard never fails with anything but 403 or 401. *)
Lemma current_user_dependency_cases authorization db now :
  (∃ u, current_user_dependency authorization db now = Return u ∧ u ∈ users db) ∨
  (∃ e, current_user_dependency authorization db now = Raise e ∧
        (status_code e = 403 ∨ e = credentials_exception)).
Proof.
  unfold current_user_dependency.
  destruct (HTTPBearer authorization) as [creds|e|w] eqn:E; simpl.
  - destruct (get_current_user_cases creds db now) as [(u & -> & Hu)| ->]; eauto.
  - right. exists e. split; [done|]. left. by eapply HTTPBearer_Raise.
  - by destruct (HTTPBearer_no_fault authorization w).
Qed.

Lemma current_user_dependency_bearer token db now :
  token ≠ EmptyString →
  current_user_dependency (Some ("Bearer " +:+ token)) db now =
  get_current_user {| scheme := "Bearer"; credentials := token |} db now.
Proof.
  intros Htok. unfold current_user_dependency. by rewrite HTTPBearer_bearer.
Qed.

Lemma decoded_token_nonempty token key algorithms now payload :
  jwt_decode token key algorithms now = Some payload → token ≠ EmptyString.
Proof. intros Hdec ->. by rewrite jwt_decode_empty in Hdec. Qed.

(** *** Planet handlers *)

Lemma guarded_Return {A} authorization db now (handler : User → Result A * Db) u :
  current_user_dependency authorization db now = Return u →
  guarded authorization db now handler = handler u.
Proof. intros Hu. unfold guarded. by rewrite Hu. Qed.

Lemma with_bound_id_Return {A} pid db (handler : Z → Result A * Db) :
  sqlite_integer pid = true → with_bound_id pid db handler = handler pid.
Proof. intros Hfit. unfold with_bound_id, bind_integer. by rewrite Hfit. Qed.

Lemma with_bound_id_Fault {A} pid db (handler : Z → Result A * Db) :
  sqlite_integer pid = false →
  with_bound_id pid db handler = (Fault "OverflowError", db).
Proof. intros Hfit. unfold with_bound_id, bind_integer. by rewrite Hfit. Qed.

(** A request the guard turns away does not reach the handler. *)
Lemma guarded_rejected {A} authorization db now (handler : User → Result A * Db) :
  (∃ u, current_user_dependency authorization db now = Return u ∧
        guarded authorization db now handler = handler u) ∨
  (∃ e, guarded authorization db now handler = (Raise e, db)).
Proof.
  unfold guarded.
  destruct (current_user_dependency_cases authorization db now)
    as [(u & -> & _)|(e & -> & _)]; eauto.
Qed.

Lemma query_planet_None db pid :
  query_planet db pid = None ↔ ∀ q, q ∈ planets db → planet_id q ≠ pid.
Proof. apply (first_with_None planet_id). Qed.

Lemma create_planet_conflict planet db u now q :
  q ∈ planets db → name q = new_name planet →
  create_planet planet db u now = (Raise conflict, db).
Proof.
  intros Hq Hname. unfold create_planet, query_planet_by_name.
  by destruct (first_with_is_Some name (new_name planet) (planets db) q Hq Hname)
    as [q' ->].
Qed.

Lemma update_planet_not_found pid planet_update db u now :
  (∀ q, q ∈ planets db → planet_id q ≠ pid) →
  update_planet pid planet_update db u now = (Raise not_found, db).
Proof.
  intros Hnone. unfold update_planet.
  by rewrite (proj2 (query_planet_None db pid) Hnone).
Qed.

Lemma delete_planet_not_found pid db u :
  (∀ q, q ∈ planets db → planet_id q ≠ pid) →
  delete_planet pid db u = (Raise not_found, db).
Proof.
  intros Hnone. unfold delete_planet.
  by rewrite (proj2 (query_planet_None db pid) Hnone).
Qed.

Lemma untouched_refl planet_update q : untouched planet_update q q.
Proof. by repeat split. Qed.

Lemma flushed_row_untouched planet_update old now row :
  flushed_row old (setattrs planet_update old) now = Some row →
  untouched planet_update old row.
Proof.
  unfold flushed_row, setattrs. simpl.
  destruct (default (Some (name old)) (set_name planet_update))
    as [nm|] eqn:Hnm; [|done].
  destruct (default (Some (planet_type old)) (set_planet_type planet_update))
    as [ty|] eqn:Hty; [|done].
  destruct (default (Some (distance_from_sun old)) (set_distance_from_sun planet_update))
    as [dist|] eqn:Hdist; [|done].
  destruct (default (Some (radius old)) (set_radius planet_update))
    as [rad|] eqn:Hrad; [|done].
  simpl. case_decide as Hsame.
  - intros [= <-]. apply untouched_refl.
  - intros [= <-]. unfold untouched. simpl.
    repeat split; intros Hunset; rewrite Hunset in *; simpl in *; congruence.
Qed.

Lemma update_frame_refl pid planet_update db : update_frame pid planet_update db db.
Proof.
  repeat split; [auto|].
  intros i q Hi _. exists q. split; [done | apply untouched_refl].
Qed.

Lemma fastapi_update_planet_frame pid planet_update db u now res db' :
  update_planet pid planet_update db u now = (res, db') →
  update_frame pid planet_update db db'.
Proof.
  unfold update_planet.
  destruct (query_planet db pid) as [old|] eqn:Hq;
    [|intros [= <- <-]; apply update_frame_refl].
  assert (planet_id old = pid) as Hold.
  { by apply (first_with_Some planet_id) in Hq as [_ ?]. }
  unfold commit_update.
  destruct (flushed_row old (setattrs planet_update old) now) as [row|] eqn:Hrow;
    [|intros [= <- <-]; apply update_frame_refl].
  case_decide as Hdup; [intros [= <- <-]; apply update_frame_refl|].
  intros [= <- <-]. unfold update_frame. simpl. split_and!.
  - done.
  - by rewrite length_fmap.
  - intros i q Hi Hne. rewrite list_lookup_fmap, Hi. simpl.
    rewrite decide_False; [done | congruence].
  - intros i q Hi Hfound. assert (q = old) as -> by congruence. exists row.
    rewrite list_lookup_fmap, Hi. simpl. rewrite decide_True by done.
    split; [done|]. by eapply flushed_row_untouched.
Qed.

(** *** The guard and the register of users *)

(** A token whose subject names no user is turned away with 401. *)
Lemma get_current_user_unknown_subject creds payload db now :
  jwt_decode (credentials creds) SECRET_KEY [ALGORITHM] now = Some payload →
  (∀ u, u ∈ users db → payload !! "sub" ≠ Some (ClaimStr (username u))) →
  get_current_user creds db now = Raise credentials_exception.
Proof.
  intros Hdec Hnone. unfold get_current_user, verify_token. rewrite Hdec.
  destruct (payload !! "sub") as [[uname|t]|] eqn:Hsub; [|done..].
  simpl. unfold query_user.
  destruct (first_with username uname (users db)) as [u|] eqn:E; [|done].
  apply first_with_Some in E as [Hin <-]. by destruct (Hnone u Hin).
Qed.

(** A token whose subject is the name of a user authenticates as that
    user. *)
Lemma get_current_user_known_subject creds payload db now u :
  NoDup (username <$> users db) → u ∈ users db →
  jwt_decode (credentials creds) SECRET_KEY [ALGORITHM] now = Some payload →
  payload !! "sub" = Some (ClaimStr (username u)) →
  get_current_user creds db now = Return u.
Proof.
  intros Hnd Hin Hdec Hsub. unfold get_current_user, verify_token.
  rewrite Hdec, Hsub. simpl. unfold query_user.
  by rewrite (first_with_unique username (username u) (users db) u).
Qed.




End facts.
End FastApiFacts.

(** ** flask_app.py *)

Module FlaskFacts.
Import FlaskApp FlaskSpec.

Section facts.
Context `{!JwtLib, !CryptContext}.

(** *** The decorator *)

Lemma token_required_accepted f authorization st now u :
  accepted authorization st now u →
  token_required f authorization st now = f u st now.
Proof.
  intros (header & token & uname & -> & Hsplit & Htok & Hver & Huname & Hfind).
  unfold token_required. by rewrite Hsplit, Htok, Hver, Huname, Hfind.
Qed.

(** Every request is either let through or answered with 401, the state
    left as it was. *)
Lemma token_required_cases f authorization st now :
  (∃ u, accepted authorization st now u ∧
        token_required f authorization st now = f u st now) ∨
  (∃ text, token_required f authorization st now = (message text 401, st)).
Proof.
  unfold token_required.
  destruct authorization as [header|]; [|by eauto].
  destruct (Py.split_space header !! 1%nat) as [token|] eqn:Hsplit; [|by eauto].
  destruct (Py.str_bool token) eqn:Htok; [|by eauto]. simpl.
  destruct (verify_token token now) as [uname|] eqn:Hver; [|by eauto].
  destruct (Py.str_bool uname) eqn:Huname; [|by eauto]. simpl.
  destruct (find_user st uname) as [u|] eqn:Hfind; [|by eauto].
  left. exists u. split; [|done]. by exists header, token, uname.
Qed.

Lemma token_required_missing f st now :
  token_required f None st now = (message "Token is missing" 401, st).
Proof. reflexivity. Qed.

Lemma str_bool_true s : Py.str_bool s = true ↔ s ≠ EmptyString.
Proof. by destruct s. Qed.

Lemma token_required_invalid f header token st now :
  Py.split_space header !! 1%nat = Some token →
  token ≠ EmptyString →
  jwt_decode token SECRET_KEY [ALGORITHM] now = None →
  token_required f (Some header) st now = (message "Token is invalid" 401, st).
Proof.
  intros Hsplit Htok Hdec. unfold token_required, verify_token.
  rewrite Hsplit, (proj2 (str_bool_true token) Htok), Hdec. done.
Qed.

Lemma verify_token_Some token now uname :
  verify_token token now = Some uname ↔
  ∃ payload, jwt_decode token SECRET_KEY [ALGORITHM] now = Some payload ∧
             payload !! "sub" = Some (ClaimStr uname).
Proof.
  unfold verify_token.
  destruct (jwt_decode token SECRET_KEY [ALGORITHM] now) as [payload|].
  - destruct (payload !! "sub") as [[s|t]|] eqn:E.
    + split; [intros [= <-]; by exists payload | intros (p & [= <-] & Hp); congruence].
    + split; [done | intros (p & [= <-] & Hp); congruence].
    + split; [done | intros (p & [= <-] & Hp); congruence].
  - split; [done | by intros (p & ? & _)].
Qed.

Lemma accepted_subject authorization st now u :
  accepted authorization st now u →
  u ∈ users_db st ∧
  ∃ header token payload,
    authorization = Some header ∧
    Py.split_space header !! 1%nat = Some token ∧
    jwt_decode token SECRET_KEY [ALGORITHM] now = Some payload ∧
    payload !! "sub" = Some (ClaimStr (username u)).
Proof.
  intros (header & token & uname & -> & Hsplit & _ & Hver & _ & Hfind).
  apply (first_with_Some username) in Hfind as [Hin <-].
  split; [done|]. apply verify_token_Some in Hver as (payload & Hdec & Hsub).
  by exists header, token, payload.
Qed.

(** A token whose subject names no user is turned away. *)
Lemma token_required_unknown_subject f header token payload st now :
  Py.split_space header !! 1%nat = Some token →
  jwt_decode token SECRET_KEY [ALGORITHM] now = Some payload →
  (∀ u, u ∈ users_db st → payload !! "sub" ≠ Some (ClaimStr (username u))) →
  ∃ text, token_required f (Some header) st now = (message text 401, st).
Proof.
  intros Hsplit Hdec Hnone.
  destruct (token_required_cases f (Some header) st now)
    as [(u & Hacc & _)|Hrej]; [|done].
  apply accepted_subject in Hacc
    as (Hin & header' & token' & payload' & [= <-] & Hsplit' & Hdec' & Hsub).
  rewrite Hsplit in Hsplit'. injection Hsplit' as <-.
  rewrite Hdec in Hdec'. injection Hdec' as <-.
  by destruct (Hnone u Hin).
Qed.

(** A token whose subject is the name of a user is let through as that
    user, provided the name is not empty. *)
Lemma accepted_valid_token header token payload st now u :
  NoDup (username <$> users_db st) →
  u ∈ users_db st →
  username u ≠ EmptyString →
  Py.split_space header !! 1%nat = Some token →
  jwt_decode token SECRET_KEY [ALGORITHM] now = Some payload →
  payload !! "sub" = Some (ClaimStr (username u)) →
  accepted (Some header) st now u.
Proof.
  intros Hnd Hin Hname Hsplit Hdec Hsub.
  exists header, token, (username u). split_and!; try done.
  - apply str_bool_true. intros ->. by rewrite jwt_decode_empty in Hdec.
  - apply verify_token_Some. by exists payload.
  - by apply str_bool_true.
  - by apply (first_with_unique username).
Qed.

(** *** Login *)

Lemma login_Some uname password st now u :
  NoDup (username <$> users_db st) →
  u ∈ users_db st → username u = uname →
  verify_password password (hashed_password u) = true →
  login uname password st now = login_ok u now.
Proof.
  intros Hnd Hin Hname Hv. unfold login, find_user.
  rewrite (first_with_unique username uname (users_db st) u) by done.
  by rewrite Hv.
Qed.

Lemma login_cases uname password st now :
  (∃ u, u ∈ users_db st ∧ username u = uname ∧
        verify_password password (hashed_password u) = true ∧
        login uname password st now = login_ok u now) ∨
  login uname password st now = login_failed.
Proof.
  unfold login, find_user.
  destruct (first_with username uname (users_db st)) as [u|] eqn:E; [|by right].
  apply first_with_Some in E as [Hin Hname].
  destruct (verify_password password (hashed_password u)) eqn:Hv; [|by right].
  left. by exists u.
Qed.

(** *** Planet views *)

Lemma flask_create_planet_conflict data nm u st now p :
  data !! "name" = Some nm →
  p ∈ planets_db st → has_name nm p = true →
  create_planet data u st now = (conflict, st).
Proof.
  intros Hnm Hp Hname. unfold create_planet. rewrite Hnm.
  by destruct (list_find_elem_of (λ p, has_name nm p = true) (planets_db st) p Hp Hname)
    as [[i p'] ->].
Qed.

Lemma find_planet_None st pid :
  find_planet st pid = None ↔ ∀ p, p ∈ planets_db st → has_id pid p = false.
Proof.
  unfold find_planet. rewrite list_find_None, Forall_forall.
  split; intros Hall p Hp; specialize (Hall p Hp).
  - by destruct (has_id pid p).
  - by rewrite Hall.
Qed.

Lemma flask_update_planet_not_found pid data u st now :
  (∀ p, p ∈ planets_db st → has_id pid p = false) →
  update_planet pid data u st now = (not_found, st).
Proof.
  intros Hnone. unfold update_planet.
  by rewrite (proj2 (find_planet_None st pid) Hnone).
Qed.

Lemma flask_delete_planet_not_found pid u st now :
  (∀ p, p ∈ planets_db st → has_id pid p = false) →
  delete_planet pid u st now = (not_found, st).
Proof.
  intros Hnone. unfold delete_planet.
  by rewrite (proj2 (find_planet_None st pid) Hnone).
Qed.

Lemma update_fields_lookup data planet k :
  update_fields data planet !! k = patched data planet k.
Proof.
  unfold update_fields. revert k.
  apply (map_fold_weak_ind
           (λ r (m : gmap string json), ∀ k, r !! k = patched m planet k)).
  - intros k. unfold patched. rewrite lookup_empty. by destruct (planet !! k).
  - intros i x m r Hi IH k. unfold update_field.
    destruct (decide (i = k)) as [->|Hne].
    + specialize (IH k). unfold patched in *. rewrite Hi in IH.
      rewrite lookup_insert_eq.
      assert (r !! k = planet !! k) as Hr by (rewrite IH; by destruct (planet !! k)).
      rewrite Hr. destruct (planet !! k) as [old|] eqn:Hold.
      * rewrite decide_True by done. destruct (is_not_none x).
        -- by rewrite lookup_insert_eq.
        -- by rewrite Hr.
      * rewrite decide_False by (by intros [? ?]). by rewrite Hr.
    + assert (update_field i x r !! k = r !! k) as Hstep.
      { unfold update_field. repeat case_match; try done.
        by rewrite lookup_insert_ne. }
      unfold update_field in Hstep. rewrite Hstep, IH. unfold patched.
      by rewrite lookup_insert_ne.
Qed.

Lemma patched_omitted data planet k :
  data !! k = None → patched data planet k = planet !! k.
Proof. intros Hk. unfold patched. rewrite Hk. by destruct (planet !! k). Qed.

Lemma patched_null data planet k :
  data !! k = Some JNull → patched data planet k = planet !! k.
Proof. intros Hk. unfold patched. rewrite Hk. by destruct (planet !! k). Qed.

Lemma patched_cases data planet k :
  patched data planet k = planet !! k ∨
  (is_Some (planet !! k) ∧ is_Some (data !! k) ∧ patched data planet k = data !! k).
Proof.
  unfold patched. destruct (planet !! k) as [old|]; [|by left].
  destruct (data !! k) as [v|]; [|by left].
  destruct (is_not_none v); [right | by left]. by split_and!.
Qed.

Lemma flask_update_planet_frame pid data u st now resp st' :
  update_planet pid data u st now = (resp, st') →
  update_frame pid data st st'.
Proof.
  unfold update_planet.
  destruct (find_planet st pid) as [[j planet]|] eqn:Hfind.
  - intros [= <- <-]. unfold update_frame. simpl.
    pose proof Hfind as Hj. unfold find_planet in Hj.
    apply list_find_Some in Hj as (Hj & _ & _).
    split_and!.
    + done.
    + by rewrite length_insert.
    + intros i Hi. apply list_lookup_insert_ne. intros <-. by destruct (Hi planet).
    + intros i p Hp. rewrite Hfind in Hp. injection Hp as <- <-. eexists. split.
      * apply list_lookup_insert_eq. by eapply lookup_lt_Some.
      * intros k Hk. rewrite lookup_insert_ne by done.
        rewrite update_fields_lookup. apply patched_cases.
  - intros [= <- <-]. unfold update_frame. split_and!; [done..|].
    intros i p Hp. congruence.
Qed.

Lemma flask_update_frame_refl pid data st : update_frame pid data st st.
Proof.
  unfold update_frame. split_and!; [done..|].
  intros i p Hfind. unfold find_planet in Hfind.
  apply list_find_Some in Hfind as (Hi & _ & _).
  exists p. split; [done|]. intros k _. by left.
Qed.

(** *** The register of users *)




End facts.
End FlaskFacts.

(** ** The claims *)

Section claims.
Context {jwtlib : JwtLib} {passlib : CryptContext}.

(** C1, as amended.  The two rejection surfaces exist in app.py only:
    there a request without an Authorization header, or with a scheme
    other than Bearer, is answered with 403, and a Bearer token that the
    codec refuses (bad signature, malformed, expired) with 401.  In
    flask_app.py every rejection is a 401: a missing header gives 401
    "Token is missing", the scheme is never looked at, and the second
    field of any header is verified as a token, giving 401 "Token is
    invalid" when the codec refuses it. *)
Theorem guard_rejection_surfaces :
  (∀ db now,
     http_status 200 (FastApi.current_user_dependency None db now) = 403) ∧
  (∀ value db now,
     Py.lower (FastApiSpec.header_scheme value) ≠ "bearer" →
     http_status 200 (FastApi.current_user_dependency (Some value) db now) = 403) ∧
  (∀ token db now,
     token ≠ EmptyString →
     jwt_decode token FastApi.SECRET_KEY [FastApi.ALGORITHM] now = None →
     FastApi.current_user_dependency (Some ("Bearer " +:+ token)) db now
       = Raise FastApi.credentials_exception ∧
     status_code FastApi.credentials_exception = 401) ∧
  (∀ f st now,
     FlaskApp.token_required f None st now
       = (FlaskApp.message "Token is missing" 401, st)) ∧
  (∀ f header token st now,
     Py.split_space header !! 1%nat = Some token →
     token ≠ EmptyString →
     jwt_decode token FlaskApp.SECRET_KEY [FlaskApp.ALGORITHM] now = None →
     FlaskApp.token_required f (Some header) st now
       = (FlaskApp.message "Token is invalid" 401, st)) ∧
  (∀ f authorization st now,
     (∃ u, FlaskApp.token_required f authorization st now = f u st now) ∨
     (∃ text, FlaskApp.token_required f authorization st now
                = (FlaskApp.message text 401, st))).
Proof.
  split_and!.
  - done.
  - intros value db now Hsch. unfold FastApi.current_user_dependency.
    by destruct (FastApiFacts.HTTPBearer_other_scheme value Hsch) as (e & -> & He).
  - intros token db now Htok Hdec. split; [|done].
    rewrite FastApiFacts.current_user_dependency_bearer by done.
    unfold FastApi.get_current_user, FastApi.verify_token. simpl. by rewrite Hdec.
  - intros. apply FlaskFacts.token_required_missing.
  - intros f header token st now Hsplit Htok Hdec.
    by apply (FlaskFacts.token_required_invalid f header token).
  - intros f authorization st now.
    destruct (FlaskFacts.token_required_cases f authorization st now)
      as [(u & _ & Hu)|Hrej]; eauto.
Qed.

(** C2.  With usernames unique in the register, [authenticate_user]
    returns the user whose username is exactly the one given if and only
    if that user is in the register and the password verifies against
    its stored hash.  In every other case the result is [None], the same
    for an unknown username as for a wrong password.  The login view of
    flask_app.py decides in the same way: the token answer for that user,
    and otherwise one fixed 401 answer. *)
Theorem authenticate_user_iff :
  (∀ db uname password,
     NoDup (FastApi.username <$> FastApi.users db) →
     (∀ u, FastApi.authenticate_user db uname password = Some u ↔
           u ∈ FastApi.users db ∧ FastApi.username u = uname ∧
           FastApi.verify_password password (FastApi.hashed_password u) = true) ∧
     ((∀ u, u ∈ FastApi.users db → FastApi.username u ≠ uname) →
      FastApi.authenticate_user db uname password = None) ∧
     (∀ u, u ∈ FastApi.users db → FastApi.username u = uname →
           FastApi.verify_password password (FastApi.hashed_password u) = false →
           FastApi.authenticate_user db uname password = None)) ∧
  (∀ st uname password now,
     NoDup (FlaskApp.username <$> FlaskApp.users_db st) →
     (∀ u, u ∈ FlaskApp.users_db st → FlaskApp.username u = uname →
           FlaskApp.verify_password password (FlaskApp.hashed_password u) = true →
           FlaskApp.login uname password st now = FlaskSpec.login_ok u now) ∧
     ((∀ u, u ∈ FlaskApp.users_db st → FlaskApp.username u ≠ uname) →
      FlaskApp.login uname password st now = FlaskSpec.login_failed) ∧
     (∀ u, u ∈ FlaskApp.users_db st → FlaskApp.username u = uname →
           FlaskApp.verify_password password (FlaskApp.hashed_password u) = false →
           FlaskApp.login uname password st now = FlaskSpec.login_failed)).
Proof.
  split.
  - intros db uname password Hnd. split_and!.
    + intros u. by apply FastApiFacts.authenticate_user_Some.
    + intros Hnone. apply FastApiFacts.authenticate_user_None. left.
      by apply (first_with_None FastApi.username).
    + intros u Hin Hname Hv. apply FastApiFacts.authenticate_user_None. right.
      exists u. split; [|done]. by apply (first_with_unique FastApi.username).
  - intros st uname password now Hnd. split_and!.
    + intros u Hin Hname Hv. by apply FlaskFacts.login_Some.
    + intros Hnone.
      destruct (FlaskFacts.login_cases uname password st now)
        as [(u & Hin & Hname & _)|Hfail]; [|done].
      by destruct (Hnone u Hin).
    + intros u Hin Hname Hv.
      destruct (FlaskFacts.login_cases uname password st now)
        as [(u' & Hin' & Hname' & Hv' & _)|Hfail]; [|done].
      assert (u' = u) as ->; [|congruence].
      assert (Some u' = Some u) as [= ->]; [|done].
      rewrite <- (first_with_unique FlaskApp.username uname (FlaskApp.users_db st) u')
        by done.
      by apply (first_with_unique FlaskApp.username).
Qed.

(** C3, the part that holds.  For a duration that is not zero the token
    of [create_access_token] carries [exp = now + delta]; without a
    duration it carries [exp = now + 30 minutes].  [verify_token] gives
    back the subject at any time before [exp] and fails at any time after
    it.  Both variants. *)
Lemma access_token_lifetime :
  ∀ sub (expires_delta : option Z) now,
    expires_delta ≠ Some 0 →
    let exp := now + default 1800 expires_delta in
    FastApi.create_access_token {["sub" := ClaimStr sub]} expires_delta now
      = jwt_encode (access_claims sub exp) FastApi.SECRET_KEY FastApi.ALGORITHM ∧
    FlaskApp.create_access_token {["sub" := ClaimStr sub]} expires_delta now
      = jwt_encode (access_claims sub exp) FlaskApp.SECRET_KEY FlaskApp.ALGORITHM ∧
    (∀ later exc,
       later < exp →
       FastApi.verify_token
         (FastApi.create_access_token {["sub" := ClaimStr sub]} expires_delta now)
         exc later = Return sub ∧
       FlaskApp.verify_token
         (FlaskApp.create_access_token {["sub" := ClaimStr sub]} expires_delta now)
         later = Some sub) ∧
    (∀ later exc,
       exp < later →
       FastApi.verify_token
         (FastApi.create_access_token {["sub" := ClaimStr sub]} expires_delta now)
         exc later = Raise exc ∧
       FlaskApp.verify_token
         (FlaskApp.create_access_token {["sub" := ClaimStr sub]} expires_delta now)
         later = None).
Proof.
  intros sub expires_delta now Hnz exp.
  assert (FastApi.create_access_token {["sub" := ClaimStr sub]} expires_delta now
          = jwt_encode (access_claims sub exp) FastApi.SECRET_KEY FastApi.ALGORITHM)
    as Hfast.
  { destruct expires_delta as [delta|]; [|done].
    apply FastApiFacts.create_access_token_nonzero. congruence. }
  assert (FlaskApp.create_access_token {["sub" := ClaimStr sub]} expires_delta now
          = jwt_encode (access_claims sub exp) FlaskApp.SECRET_KEY FlaskApp.ALGORITHM)
    as Hflask.
  { destruct expires_delta as [delta|]; [|done].
    unfold FlaskApp.create_access_token, Py.timedelta_bool.
    rewrite (proj2 (Z.eqb_neq delta 0)); [done | congruence]. }
  rewrite Hfast, Hflask. split_and!; [done..| |].
  - intros later exc Hlater. split.
    + by apply FastApiFacts.verify_token_fresh.
    + unfold FlaskApp.verify_token.
      rewrite jwt_decode_fresh; [|apply jwt_hs256|by left|done].
      by rewrite FastApiFacts.access_claims_sub.
  - intros later exc Hlater. split.
    + by apply FastApiFacts.verify_token_expired.
    + unfold FlaskApp.verify_token.
      by rewrite jwt_decode_expired; [|apply jwt_hs256|].
Qed.

(** C3 at a duration of zero.  [if expires_delta:] takes [timedelta(0)]
    for a missing argument: the token carries [exp = now + 30 minutes]
    instead of [exp = now], and [verify_token] still accepts it one second
    and 29 minutes after it was issued.  Both variants. *)
Theorem zero_ttl_gets_default_lifetime :
  ∀ sub now exc,
    FastApi.create_access_token {["sub" := ClaimStr sub]} (Some 0) now
      = jwt_encode (access_claims sub (now + 1800))
                   FastApi.SECRET_KEY FastApi.ALGORITHM ∧
    FlaskApp.create_access_token {["sub" := ClaimStr sub]} (Some 0) now
      = jwt_encode (access_claims sub (now + 1800))
                   FlaskApp.SECRET_KEY FlaskApp.ALGORITHM ∧
    FastApi.verify_token
      (FastApi.create_access_token {["sub" := ClaimStr sub]} (Some 0) now)
      exc (now + 1) = Return sub ∧
    FastApi.verify_token
      (FastApi.create_access_token {["sub" := ClaimStr sub]} (Some 0) now)
      exc (now + 1740) = Return sub ∧
    FlaskApp.verify_token
      (FlaskApp.create_access_token {["sub" := ClaimStr sub]} (Some 0) now)
      (now + 1) = Some sub.
Proof.
  intros sub now exc. rewrite FastApiFacts.create_access_token_zero.
  split_and!; [done..| | |].
  - apply FastApiFacts.verify_token_fresh. lia.
  - apply FastApiFacts.verify_token_fresh. lia.
  - change (FlaskApp.create_access_token {["sub" := ClaimStr sub]} (Some 0) now)
      with (jwt_encode (access_claims sub (now + 1800))
                       FlaskApp.SECRET_KEY FlaskApp.ALGORITHM).
    unfold FlaskApp.verify_token.
    rewrite jwt_decode_fresh; [|apply jwt_hs256|by left|lia].
    by rewrite FastApiFacts.access_claims_sub.
Qed.

(** C6.  A bearer token that the codec accepts, but whose subject is the
    username of no user, is rejected with 401 in both variants: the
    guard neither authenticates nor fails in any other way. *)
Theorem unknown_subject_rejected :
  (∀ token payload db now,
     jwt_decode token FastApi.SECRET_KEY [FastApi.ALGORITHM] now = Some payload →
     (∀ u, u ∈ FastApi.users db →
           payload !! "sub" ≠ Some (ClaimStr (FastApi.username u))) →
     FastApi.current_user_dependency (Some ("Bearer " +:+ token)) db now
       = Raise FastApi.credentials_exception ∧
     status_code FastApi.credentials_exception = 401) ∧
  (∀ f header token payload st now,
     Py.split_space header !! 1%nat = Some token →
     jwt_decode token FlaskApp.SECRET_KEY [FlaskApp.ALGORITHM] now = Some payload →
     (∀ u, u ∈ FlaskApp.users_db st →
           payload !! "sub" ≠ Some (ClaimStr (FlaskApp.username u))) →
     ∃ text, FlaskApp.token_required f (Some header) st now
               = (FlaskApp.message text 401, st)).
Proof.
  split.
  - intros token payload db now Hdec Hnone. split; [|done].
    rewrite FastApiFacts.current_user_dependency_bearer
      by (by eapply FastApiFacts.decoded_token_nonempty).
    by eapply FastApiFacts.get_current_user_unknown_subject.
  - intros f header token payload st now Hsplit Hdec Hnone.
    by eapply FlaskFacts.token_required_unknown_subject.
Qed.

(** C7.  A create request that passes the guard and names a planet that
    already exists is answered with 400 and leaves the store as it was,
    in both variants. *)
Theorem create_duplicate_name_conflict :
  (∀ authorization planet db now u q,
     FastApi.current_user_dependency authorization db now = Return u →
     q ∈ FastApi.planets db → FastApi.name q = FastApi.new_name planet →
     FastApi.post_planets authorization planet db now
       = (Raise FastApiSpec.conflict, db) ∧
     status_code FastApiSpec.conflict = 400) ∧
  (∀ authorization data nm st now u p v,
     FlaskSpec.accepted authorization st now u →
     data !! "name" = Some nm →
     p ∈ FlaskApp.planets_db st → p !! "name" = Some v →
     FlaskApp.py_eq v nm = true →
     FlaskApp.post_planets authorization data st now = (FlaskSpec.conflict, st) ∧
     FlaskApp.status FlaskSpec.conflict = 400).
Proof.
  split.
  - intros authorization planet db now u q Hu Hq Hname. split; [|done].
    unfold FastApi.post_planets. rewrite (FastApiFacts.guarded_Return _ _ _ _ u) by done.
    by eapply FastApiFacts.create_planet_conflict.
  - intros authorization data nm st now u p v Hacc Hnm Hp Hv Heq. split; [|done].
    unfold FlaskApp.post_planets.
    rewrite (FlaskFacts.token_required_accepted _ _ _ _ u) by done.
    apply (FlaskFacts.flask_create_planet_conflict data nm u st now p); [done..|].
    unfold FlaskApp.has_name. by rewrite Hv.
Qed.

(** C8, the part that holds.  An update or a delete request that passes
    the guard and names an id that fits 64 bits and that no planet has is
    answered with 404 and leaves the store as it was. *)
Lemma update_delete_missing_id_not_found :
  ∀ authorization pid planet_update db now u,
    FastApi.current_user_dependency authorization db now = Return u →
    FastApi.sqlite_integer pid = true →
    (∀ q, q ∈ FastApi.planets db → FastApi.planet_id q ≠ pid) →
    FastApi.put_planet authorization pid planet_update db now
      = (Raise FastApiSpec.not_found, db) ∧
    FastApi.delete_planet_route authorization pid db now
      = (Raise FastApiSpec.not_found, db) ∧
    status_code FastApiSpec.not_found = 404.
Proof.
  intros authorization pid planet_update db now u Hu Hfit Hnone.
  unfold FastApi.put_planet, FastApi.delete_planet_route.
  rewrite !(FastApiFacts.guarded_Return _ _ _ _ u) by done.
  rewrite !FastApiFacts.with_bound_id_Return by done.
  split_and!; [|  |done].
  - by apply FastApiFacts.update_planet_not_found.
  - by apply FastApiFacts.delete_planet_not_found.
Qed.

(** C8 at an id that does not fit 64 bits.  [planet_id: int] admits any
    integer, and the query that looks the planet up hands it to SQLite:
    the driver raises [OverflowError], which neither handler catches.  An
    update or a delete request that passes the guard and names such an id
    (which no planet can have) is answered with 500, not with 404; the
    store is left as it was. *)
Theorem oversized_id_is_server_error :
  ∀ authorization pid planet_update db now u,
    FastApi.current_user_dependency authorization db now = Return u →
    FastApi.sqlite_integer pid = false →
    FastApi.put_planet authorization pid planet_update db now
      = (Fault "OverflowError", db) ∧
    FastApi.delete_planet_route authorization pid db now
      = (Fault "OverflowError", db) ∧
    http_status 200 (fst (FastApi.put_planet authorization pid planet_update db now))
      = 500 ∧
    http_status 204 (fst (FastApi.delete_planet_route authorization pid db now))
      = 500.
Proof.
  intros authorization pid planet_update db now u Hu Hfit.
  unfold FastApi.put_planet, FastApi.delete_planet_route.
  rewrite !(FastApiFacts.guarded_Return _ _ _ _ u) by done.
  rewrite !FastApiFacts.with_bound_id_Fault by done.
  by split_and!.
Qed.

(** The same in flask_app.py. *)
Lemma flask_update_delete_missing_id_not_found :
  ∀ authorization pid data st now u,
    FlaskSpec.accepted authorization st now u →
    (∀ p, p ∈ FlaskApp.planets_db st → FlaskApp.has_id pid p = false) →
    FlaskApp.put_planet authorization pid data st now = (FlaskSpec.not_found, st) ∧
    FlaskApp.delete_planet_route authorization pid st now = (FlaskSpec.not_found, st).
Proof.
  intros authorization pid data st now u Hacc Hnone.
  unfold FlaskApp.put_planet, FlaskApp.delete_planet_route.
  rewrite !(FlaskFacts.token_required_accepted _ _ _ _ u) by done.
  split.
  - by apply FlaskFacts.flask_update_planet_not_found.
  - by apply FlaskFacts.flask_delete_planet_not_found.
Qed.


(** C10.  [update_planet] changes nothing but the planet addressed, and
    in it nothing but the fields the request body gives and the
    [updated_at] stamp.  In app.py: the users and every row with another
    id are as before, and the row found keeps its id, its creation stamp
    and every column the body leaves out.  In flask_app.py: the users and
    every other dictionary of the list are as before, and in the
    dictionary found every key but ["updated_at"] either keeps its value
    or takes the value the body gives for it, so a key the body leaves out
    keeps its value. *)
Theorem update_planet_frame :
  (∀ pid planet_update db u now res db',
     FastApi.update_planet pid planet_update db u now = (res, db') →
     FastApi.users db' = FastApi.users db ∧
     length (FastApi.planets db') = length (FastApi.planets db) ∧
     (∀ i q, FastApi.planets db !! i = Some q → FastApi.planet_id q ≠ pid →
             FastApi.planets db' !! i = Some q) ∧
     (∀ i q, FastApi.planets db !! i = Some q →
             FastApi.query_planet db pid = Some q →
             ∃ q', FastApi.planets db' !! i = Some q' ∧
                   FastApiSpec.untouched planet_update q q')) ∧
  (∀ pid data u st now resp st',
     FlaskApp.update_planet pid data u st now = (resp, st') →
     FlaskApp.users_db st' = FlaskApp.users_db st ∧
     length (FlaskApp.planets_db st') = length (FlaskApp.planets_db st) ∧
     (∀ i, (∀ p, FlaskApp.find_planet st pid ≠ Some (i, p)) →
           FlaskApp.planets_db st' !! i = FlaskApp.planets_db st !! i) ∧
     (∀ i p, FlaskApp.find_planet st pid = Some (i, p) →
             ∃ p', FlaskApp.planets_db st' !! i = Some p' ∧
                   ∀ k, k ≠ "updated_at" →
                        (data !! k = None → p' !! k = p !! k) ∧
                        (p' !! k = p !! k ∨
                         (is_Some (p !! k) ∧ p' !! k = data !! k)))).
Proof.
  split.
  - intros pid planet_update db u now res db' Hrun.
    apply (FastApiFacts.fastapi_update_planet_frame pid planet_update db u now res db' Hrun).
  - intros pid data u st now resp st' Hrun.
    destruct (FlaskFacts.flask_update_planet_frame pid data u st now resp st' Hrun)
      as (Husers & Hlen & Hothers & Hfound).
    split_and!; [done..|].
    intros i p Hp. destruct (Hfound i p Hp) as (p' & Hp' & Hkeys).
    exists p'. split; [done|]. intros k Hk.
    destruct (Hkeys k Hk) as [Hsame|(Hold & Hnew & Hval)].
    + split; [done | by left].
    + split; [|by right].
      intros Hnone. rewrite Hnone in Hnew. by destruct Hnew.
Qed.

End claims.

(** ** Runs on the sample data

    Each lemma applies a theorem above to a concrete request, with the
    reference codec and password context in place of the libraries. *)

Section runs.
Local Existing Instances Reference.jwt Reference.crypt.

Lemma guard_rejection_surfaces_run :
  http_status 200
    (FastApi.current_user_dependency (Some "Token abc") Sample.db 1000) = 403 ∧
  FastApi.current_user_dependency (Some "Bearer invalid_token") Sample.db 1000
    = Raise FastApi.credentials_exception ∧
  FlaskApp.token_required Sample.whoami (Some "Bearer invalid_token")
    Sample.flask_state 1000
    = (FlaskApp.message "Token is invalid" 401, Sample.flask_state).
Proof.
  destruct (guard_rejection_surfaces (jwtlib := Reference.jwt))
    as (_ & Hscheme & Hbad & _ & Hflask & _).
  split_and!.
  - apply Hscheme. vm_compute. discriminate.
  - apply (Hbad "invalid_token"); [discriminate | reflexivity].
  - apply (Hflask _ _ "invalid_token"); [reflexivity | discriminate | reflexivity].
Defined.

(** C1 as stated fails in flask_app.py: a request without an
    Authorization header and one with another scheme are both answered
    with 401, not 403. *)
Lemma flask_no_credential_is_401 :
  FlaskApp.status
    (fst (FlaskApp.token_required Sample.whoami None Sample.flask_state 1000)) = 401 ∧
  FlaskApp.status
    (fst (FlaskApp.token_required Sample.whoami (Some "Token abc")
            Sample.flask_state 1000)) = 401.
Proof. split; reflexivity. Qed.

Lemma sample_users_NoDup : NoDup (FastApi.username <$> FastApi.users Sample.db).
Proof. refine (bool_decide_unpack _ _). vm_compute. exact I. Defined.

Lemma sample_flask_users_NoDup :
  NoDup (FlaskApp.username <$> FlaskApp.users_db Sample.flask_state).
Proof. refine (bool_decide_unpack _ _). vm_compute. exact I. Defined.

Lemma authenticate_user_iff_run :
  FastApi.authenticate_user Sample.db "testuser" "testpass123" = Some Sample.testuser ∧
  FastApi.authenticate_user Sample.db "invaliduser" "testpass123" = None ∧
  FastApi.authenticate_user Sample.db "testuser" "wrongpassword" = None ∧
  FlaskApp.login "testuser" "test123" Sample.flask_state 1000
    = FlaskSpec.login_ok Sample.flask_testuser 1000 ∧
  FlaskApp.login "invaliduser" "test123" Sample.flask_state 1000
    = FlaskSpec.login_failed ∧
  FlaskApp.login "testuser" "wrongpassword" Sample.flask_state 1000
    = FlaskSpec.login_failed.
Proof.
  destruct (authenticate_user_iff (jwtlib := Reference.jwt) (passlib := Reference.crypt))
    as [Hfast Hflask].
  split_and!.
  - apply (Hfast Sample.db "testuser" "testpass123" sample_users_NoDup).
    split_and!; [|reflexivity..]. apply list_elem_of_here.
  - apply (Hfast Sample.db "invaliduser" "testpass123" sample_users_NoDup).
    intros u Hu. apply list_elem_of_In in Hu.
    destruct Hu as [<-|[<-|[]]]; discriminate.
  - apply (Hfast Sample.db "testuser" "wrongpassword" sample_users_NoDup)
      with (u := Sample.testuser); [|reflexivity..]. apply list_elem_of_here.
  - apply (Hflask Sample.flask_state "testuser" "test123" 1000 sample_flask_users_NoDup);
      [|reflexivity..]. apply list_elem_of_here.
  - apply (Hflask Sample.flask_state "invaliduser" "test123" 1000
             sample_flask_users_NoDup).
    intros u Hu. apply list_elem_of_In in Hu.
    destruct Hu as [<-|[<-|[]]]; discriminate.
  - apply (Hflask Sample.flask_state "testuser" "wrongpassword" 1000
             sample_flask_users_NoDup)
      with (u := Sample.flask_testuser); [|reflexivity..]. apply list_elem_of_here.
Defined.

Lemma unknown_subject_rejected_run :
  FastApi.current_user_dependency
    (Some ("Bearer " +:+ Sample.token_for FastApi.SECRET_KEY "ghost")) Sample.db 1000
    = Raise FastApi.credentials_exception ∧
  ∃ text,
    FlaskApp.token_required Sample.whoami
      (Some (Sample.bearer (Sample.token_for FlaskApp.SECRET_KEY "ghost")))
      Sample.flask_state 1000
    = (FlaskApp.message text 401, Sample.flask_state).
Proof.
  destruct (unknown_subject_rejected (jwtlib := Reference.jwt)) as [Hfast Hflask].
  split.
  - apply (Hfast _ (access_claims "ghost" 2000)).
    + reflexivity.
    + intros u Hu. apply list_elem_of_In in Hu.
      destruct Hu as [<-|[<-|[]]]; vm_compute; discriminate.
  - apply (Hflask Sample.whoami _ (Sample.token_for FlaskApp.SECRET_KEY "ghost")
             (access_claims "ghost" 2000)).
    + reflexivity.
    + reflexivity.
    + intros u Hu. apply list_elem_of_In in Hu.
      destruct Hu as [<-|[<-|[]]]; vm_compute; discriminate.
Defined.

Lemma sample_accepted :
  FlaskSpec.accepted
    (Some (Sample.bearer (Sample.token_for FlaskApp.SECRET_KEY "testuser")))
    Sample.flask_state 1000 Sample.flask_testuser.
Proof.
  exists (Sample.bearer (Sample.token_for FlaskApp.SECRET_KEY "testuser")),
         (Sample.token_for FlaskApp.SECRET_KEY "testuser"), "testuser".
  split_and!; reflexivity.
Defined.

Lemma sample_authenticated :
  FastApi.current_user_dependency
    (Some (Sample.bearer (Sample.token_for FastApi.SECRET_KEY "testuser")))
    Sample.db 1000 = Return Sample.testuser.
Proof. reflexivity. Defined.

Lemma create_duplicate_name_conflict_run :
  FastApi.post_planets
    (Some (Sample.bearer (Sample.token_for FastApi.SECRET_KEY "testuser")))
    Sample.duplicate Sample.db 1000
    = (Raise FastApiSpec.conflict, Sample.db) ∧
  FlaskApp.post_planets
    (Some (Sample.bearer (Sample.token_for FlaskApp.SECRET_KEY "testuser")))
    {["name" := FlaskApp.JStr "Test Planet 1"]} Sample.flask_state 1000
    = (FlaskSpec.conflict, Sample.flask_state).
Proof.
  destruct (create_duplicate_name_conflict (jwtlib := Reference.jwt))
    as [Hfast Hflask].
  split.
  - apply (Hfast _ Sample.duplicate Sample.db 1000 Sample.testuser Sample.planet1).
    + apply sample_authenticated.
    + apply list_elem_of_here.
    + reflexivity.
  - apply (Hflask _ _ (FlaskApp.JStr "Test Planet 1") Sample.flask_state 1000
             Sample.flask_testuser (Sample.flask_planet 1 "Test Planet 1")
             (FlaskApp.JStr "Test Planet 1")).
    + apply sample_accepted.
    + reflexivity.
    + apply list_elem_of_here.
    + reflexivity.
    + reflexivity.
Defined.

Lemma update_delete_missing_id_not_found_run :
  FastApi.put_planet
    (Some (Sample.bearer (Sample.token_for FastApi.SECRET_KEY "testuser")))
    999 Sample.redescribe Sample.db 1000
    = (Raise FastApiSpec.not_found, Sample.db) ∧
  FastApi.delete_planet_route
    (Some (Sample.bearer (Sample.token_for FastApi.SECRET_KEY "testuser")))
    999 Sample.db 1000
    = (Raise FastApiSpec.not_found, Sample.db).
Proof.
  destruct (update_delete_missing_id_not_found (jwtlib := Reference.jwt)
              (Some (Sample.bearer (Sample.token_for FastApi.SECRET_KEY "testuser")))
              999 Sample.redescribe Sample.db 1000 Sample.testuser)
    as (Hput & Hdelete & _).
  - apply sample_authenticated.
  - reflexivity.
  - intros q Hq. apply list_elem_of_In in Hq.
    destruct Hq as [<-|[<-|[]]]; discriminate.
  - by split.
Defined.

Lemma oversized_id_is_server_error_run :
  FastApi.put_planet
    (Some (Sample.bearer (Sample.token_for FastApi.SECRET_KEY "testuser")))
    (2 ^ 63) Sample.redescribe Sample.db 1000
    = (Fault "OverflowError", Sample.db) ∧
  FastApi.delete_planet_route
    (Some (Sample.bearer (Sample.token_for FastApi.SECRET_KEY "testuser")))
    (2 ^ 63) Sample.db 1000
    = (Fault "OverflowError", Sample.db) ∧
  http_status 200
    (fst (FastApi.put_planet
            (Some (Sample.bearer (Sample.token_for FastApi.SECRET_KEY "testuser")))
            (2 ^ 63) Sample.redescribe Sample.db 1000)) = 500 ∧
  http_status 204
    (fst (FastApi.delete_planet_route
            (Some (Sample.bearer (Sample.token_for FastApi.SECRET_KEY "testuser")))
            (2 ^ 63) Sample.db 1000)) = 500.
Proof.
  apply (oversized_id_is_server_error (jwtlib := Reference.jwt)
           (Some (Sample.bearer (Sample.token_for FastApi.SECRET_KEY "testuser")))
           (2 ^ 63) Sample.redescribe Sample.db 1000 Sample.testuser).
  - apply sample_authenticated.
  - reflexivity.
Defined.


Lemma update_planet_frame_run :
  (∃ q', FastApi.planets (snd Sample.updated) !! 0%nat = Some q' ∧
         FastApiSpec.untouched Sample.redescribe Sample.planet1 q') ∧
  FastApi.planets (snd Sample.updated) !! 1%nat = Some Sample.planet2 ∧
  (∃ p', FlaskApp.planets_db (snd Sample.flask_updated) !! 0%nat = Some p' ∧
         p' !! "name" = Some (FlaskApp.JStr "Test Planet 1")).
Proof.
  destruct update_planet_frame as [Hfast Hflask].
  assert (FastApi.update_planet 1 Sample.redescribe Sample.db Sample.testuser 1000
          = (fst Sample.updated, snd Sample.updated)) as Hrun
    by apply surjective_pairing.
  assert (FlaskApp.update_planet 1 Sample.flask_redescribe Sample.flask_testuser
            Sample.flask_state 1000
          = (fst Sample.flask_updated, snd Sample.flask_updated)) as Hrun'
    by apply surjective_pairing.
  destruct (Hfast _ _ _ _ _ _ _ Hrun) as (_ & _ & Hothers & Hfound).
  destruct (Hflask _ _ _ _ _ _ _ Hrun') as (_ & _ & _ & Hfound').
  split_and!.
  - apply (Hfound 0%nat Sample.planet1); reflexivity.
  - apply (Hothers 1%nat Sample.planet2); [reflexivity | discriminate].
  - assert (FlaskApp.find_planet Sample.flask_state 1
            = Some (0%nat, Sample.flask_planet 1 "Test Planet 1")) as Hfind.
    { reflexivity. }
    pose proof (Hfound' 0%nat (Sample.flask_planet 1 "Test Planet 1") Hfind) as Hex.
    destruct Hex as (p' & Hp' & Hkeys).
    exists p'. split; [exact Hp'|].
    destruct (Hkeys "name" ltac:(discriminate)) as [Hkeep _].
    rewrite Hkeep by reflexivity. reflexivity.
Defined.

End runs.

(** * Further properties *)

(** ** Lists *)

Section more_lists.
Context {A B : Type} `{EqDecision B} (f : A → B).

Lemma first_with_app b l k :
  first_with f b (l ++ k) =
  match first_with f b l with
  | Some x => Some x
  | None => first_with f b k
  end.
Proof.
  induction l as [|a l IH]; [done|].
  rewrite <- app_comm_cons, !first_with_cons. by case_decide.
Qed.

Lemma first_with_filter_ne b c l :
  first_with f b (filter (λ x, f x ≠ c) l) =
  if decide (b = c) then None else first_with f b l.
Proof.
  induction l as [|a l IH].
  - by case_decide.
  - rewrite filter_cons. destruct (decide (f a ≠ c)) as [Hne|Heq].
    + rewrite !first_with_cons, IH. repeat case_decide; congruence.
    + apply dec_stable in Heq. rewrite IH, first_with_cons.
      repeat case_decide; congruence.
Qed.

(** After every element with key [b] is replaced by [y], which has key
    [b] too, the first element with that key is [y]. *)
Lemma first_with_replace b y l :
  f y = b → is_Some (first_with f b l) →
  first_with f b ((λ x, if decide (f x = b) then y else x) <$> l) = Some y.
Proof.
  intros Hy. induction l as [|a l IH]; [by intros [? ?]|].
  rewrite fmap_cons, !first_with_cons.
  destruct (decide (f a = b)) as [Ha|Ha].
  - by rewrite decide_True.
  - rewrite decide_False by done. apply IH.
Qed.

Lemma first_with_replace_ne b c y l :
  f y = b → c ≠ b →
  first_with f c ((λ x, if decide (f x = b) then y else x) <$> l) = first_with f c l.
Proof.
  intros Hy Hc. induction l as [|a l IH]; [done|].
  rewrite fmap_cons, !first_with_cons.
  destruct (decide (f a = b)) as [Ha|Ha].
  - rewrite !decide_False by congruence. apply IH.
  - by rewrite IH.
Qed.

(** With a unique key two elements with the same key are the same. *)
Lemma NoDup_fmap_eq l x y :
  NoDup (f <$> l) → x ∈ l → y ∈ l → f x = f y → x = y.
Proof.
  induction l as [|a l IH]; intros Hnd Hx Hy Hxy.
  - by apply elem_of_nil in Hx.
  - rewrite fmap_cons in Hnd. apply NoDup_cons in Hnd as [Ha Hnd].
    apply elem_of_cons in Hx as [->|Hx]; apply elem_of_cons in Hy as [->|Hy].
    + done.
    + destruct Ha. rewrite Hxy. by apply list_elem_of_fmap_2.
    + destruct Ha. rewrite <- Hxy. by apply list_elem_of_fmap_2.
    + by apply IH.
Qed.

Lemma NoDup_fmap_filter (P : A → Prop) `{∀ x, Decision (P x)} l :
  NoDup (f <$> l) → NoDup (f <$> filter P l).
Proof.
  intros Hnd. apply (sublist_NoDup (f <$> filter P l) (f <$> l)); [done|].
  apply (fmap_sublist f). apply sublist_filter.
Qed.

End more_lists.

Lemma foldl_max_init a l : a ≤ foldl Z.max a l.
Proof.
  revert a. induction l as [|b l IH]; intros a; simpl; [lia|].
  specialize (IH (Z.max a b)). lia.
Qed.

Lemma foldl_max_elem a l x : x ∈ l → x ≤ foldl Z.max a l.
Proof.
  revert a. induction l as [|b l IH]; intros a Hx; simpl.
  - by apply elem_of_nil in Hx.
  - apply elem_of_cons in Hx as [->|Hx]; [|by apply IH].
    pose proof (foldl_max_init (Z.max a b) l). lia.
Qed.

Lemma max_default_elem d l x : x ∈ l → x ≤ Py.max_default d l.
Proof.
  destruct l as [|a l]; simpl; intros Hx.
  - by apply elem_of_nil in Hx.
  - apply elem_of_cons in Hx as [->|Hx]; [apply foldl_max_init | by apply foldl_max_elem].
Qed.

(** ** app.py: planets *)

Module FastApiMore.
Import FastApi FastApiSpec.

Section planets.
Context `{!JwtLib, !CryptContext}.

(** The row an update writes has the key of the row it replaces. *)
Lemma fastapi_row_key old pending now row :
  flushed_row old pending now = Some row → planet_id row = planet_id old.
Proof.
  unfold flushed_row.
  destruct (pending_name pending); [|done].
  destruct (pending_planet_type pending); [|done].
  destruct (pending_distance_from_sun pending); [|done].
  destruct (pending_radius pending); [|done].
  simpl. case_decide; by intros [= <-].
Qed.

(** The key handed to a new row is larger than every key in use. *)
Lemma next_planet_id_fresh db q :
  q ∈ planets db → planet_id q < next_planet_id db.
Proof.
  intros Hq. unfold next_planet_id.
  assert (planet_id q ∈ planet_id <$> planets db) as Hin
    by (by apply list_elem_of_fmap_2).
  pose proof (max_default_elem 0 _ _ Hin). lia.
Qed.

(** X1.  A create request with a name that no planet has is answered with the
    new row: it carries the seven values of the body, both stamps are the
    time of the request, its key is larger than every key in use, and it
    is added behind the rows there are; the users are not touched. *)
Theorem create_planet_new_name planet db u now :
  (∀ q, q ∈ planets db → name q ≠ new_name planet) →
  ∃ row,
    create_planet planet db u now
      = (Return row, {| planets := planets db ++ [row]; users := users db |}) ∧
    carries planet row ∧
    created_at row = now ∧ updated_at row = now ∧
    (∀ q, q ∈ planets db → planet_id q < planet_id row).
Proof.
  intros Hnew. unfold create_planet, query_planet_by_name.
  rewrite (proj2 (first_with_None name (new_name planet) (planets db)) Hnew).
  eexists. split; [reflexivity|]. simpl. split_and!; try done.
  apply next_planet_id_fresh.
Qed.

(** X2.  Round trip of create and read: the row a create request returns is
    what [GET /planets/{id}] gives for its key afterwards, it is the last
    entry of [GET /planets], and reading any other key gives what it gave
    before. *)
Theorem create_then_get planet db u now row db' :
  create_planet planet db u now = (Return row, db') →
  get_planet (planet_id row) db' = Return row ∧
  get_planets db' = get_planets db ++ [row] ∧
  (∀ pid, pid ≠ planet_id row → get_planet pid db' = get_planet pid db).
Proof.
  unfold create_planet, query_planet_by_name.
  destruct (first_with name (new_name planet) (planets db)) as [q|] eqn:Hname;
    [done|].
  intros [= <- <-].
  assert (first_with planet_id (next_planet_id db) (planets db) = None) as Hnone.
  { apply (first_with_None planet_id). intros q Hq Heq.
    pose proof (next_planet_id_fresh db q Hq). lia. }
  unfold get_planet, get_planets, query_planet. simpl. split_and!.
  - rewrite first_with_app, Hnone, first_with_cons. simpl. by rewrite decide_True.
  - done.
  - intros pid Hpid. rewrite first_with_app.
    destruct (first_with planet_id pid (planets db)); [done|].
    rewrite first_with_cons. simpl. by rewrite decide_False.
Qed.

(** The row found by key has that key. *)
Lemma query_planet_Some db pid q :
  query_planet db pid = Some q → q ∈ planets db ∧ planet_id q = pid.
Proof. apply (first_with_Some planet_id). Qed.

(** X3.  A delete request for a key in use removes the rows with that key and
    no other: the rest are there in their order, the users are as before,
    reading the key afterwards gives 404, so does deleting it again, and
    every other key reads as before. *)
Theorem delete_planet_removes pid db u db' :
  delete_planet pid db u = (Return (), db') →
  planets db' = filter (λ q, planet_id q ≠ pid) (planets db) ∧
  users db' = users db ∧
  get_planet pid db' = Raise not_found ∧
  delete_planet pid db' u = (Raise not_found, db') ∧
  (∀ pid', pid' ≠ pid → get_planet pid' db' = get_planet pid' db).
Proof.
  unfold delete_planet at 1.
  destruct (query_planet db pid) as [q|] eqn:Hq; [|done].
  apply query_planet_Some in Hq as [_ ->]. intros [= <-].
  assert (∀ pid', query_planet
                    {| planets := filter (λ q0, planet_id q0 ≠ pid) (planets db);
                       users := users db |} pid'
                  = if decide (pid' = pid) then None else query_planet db pid')
    as Hquery.
  { intros pid'. unfold query_planet. simpl. apply (first_with_filter_ne planet_id). }
  split_and!; try done.
  - unfold get_planet. rewrite Hquery. by rewrite decide_True.
  - unfold delete_planet. rewrite Hquery. by rewrite decide_True.
  - intros pid' Hne. unfold get_planet. rewrite Hquery. by rewrite decide_False.
Qed.

(** X4.  A successful update returns the row as stored: it has the key asked
    for and every value the body gives, and reading the key afterwards
    gives that row. *)
Theorem update_planet_applies pid planet_update db u now row db' :
  update_planet pid planet_update db u now = (Return row, db') →
  planet_id row = pid ∧
  applied planet_update row ∧
  get_planet pid db' = Return row.
Proof.
  unfold update_planet.
  destruct (query_planet db pid) as [old|] eqn:Hq; [|done].
  pose proof Hq as Hfound. apply query_planet_Some in Hq as [Hin Hold].
  unfold commit_update.
  destruct (flushed_row old (setattrs planet_update old) now) as [row'|] eqn:Hrow;
    [|done].
  case_decide as Hdup; [done|]. intros [= <- <-].
  assert (planet_id row' = planet_id old ∧ applied planet_update row') as [Hid Happ].
  { unfold flushed_row, setattrs in Hrow. simpl in Hrow.
    destruct (default (Some (name old)) (set_name planet_update))
      as [nm|] eqn:Hnm; [|done].
    destruct (default (Some (planet_type old)) (set_planet_type planet_update))
      as [ty|] eqn:Hty; [|done].
    destruct (default (Some (distance_from_sun old))
                      (set_distance_from_sun planet_update))
      as [dist|] eqn:Hdist; [|done].
    destruct (default (Some (radius old)) (set_radius planet_update))
      as [rad|] eqn:Hrad; [|done].
    simpl in Hrow.
    assert (∀ stamp,
              applied planet_update
                {| planet_id := planet_id old; name := nm; planet_type := ty;
                   distance_from_sun := dist; radius := rad;
                   description :=
                     default (description old) (set_description planet_update);
                   mass := default (mass old) (set_mass planet_update);
                   orbital_period :=
                     default (orbital_period old) (set_orbital_period planet_update);
                   created_at := created_at old; updated_at := stamp |}) as Hall.
    { intros stamp. unfold applied. simpl.
      split_and!; intros v Hv; rewrite Hv in *; simpl in *; congruence. }
    case_decide as Hsame; injection Hrow as <-.
    - split; [done|]. rewrite <- Hsame. apply Hall.
    - split; [done|]. apply Hall. }
  split_and!; [congruence | done |].
  unfold get_planet, query_planet. simpl. rewrite Hold in *.
  rewrite (first_with_replace planet_id pid row'); [done | congruence |].
  unfold query_planet in Hfound. by rewrite Hfound.
Qed.

(** X5.  A request body that only repeats what the row holds changes nothing,
    not even [updated_at], when keys and names are unique: the row is
    returned as it is and the database is the same. *)
Theorem update_planet_same_values pid planet_update db u now q :
  unique_ids db → unique_names db →
  query_planet db pid = Some q →
  applied planet_update q →
  update_planet pid planet_update db u now = (Return q, db).
Proof.
  intros Hids Hnames Hq Happ. unfold update_planet. rewrite Hq.
  apply query_planet_Some in Hq as [Hin Hid].
  destruct Happ as (Hnm & Hty & Hdist & Hrad & Hdesc & Hmass & Hperiod).
  assert (flushed_row q (setattrs planet_update q) now = Some q) as Hrow.
  { unfold flushed_row, setattrs. simpl.
    assert (default (Some (name q)) (set_name planet_update) = Some (name q)) as ->.
    { destruct (set_name planet_update) as [v|]; [|done]. by rewrite (Hnm v). }
    assert (default (Some (planet_type q)) (set_planet_type planet_update)
            = Some (planet_type q)) as ->.
    { destruct (set_planet_type planet_update) as [v|]; [|done]. by rewrite (Hty v). }
    assert (default (Some (distance_from_sun q)) (set_distance_from_sun planet_update)
            = Some (distance_from_sun q)) as ->.
    { destruct (set_distance_from_sun planet_update) as [v|]; [|done].
      by rewrite (Hdist v). }
    assert (default (Some (radius q)) (set_radius planet_update)
            = Some (radius q)) as ->.
    { destruct (set_radius planet_update) as [v|]; [|done]. by rewrite (Hrad v). }
    assert (default (description q) (set_description planet_update)
            = description q) as ->.
    { destruct (set_description planet_update) as [v|]; [|done]. by rewrite (Hdesc v). }
    assert (default (mass q) (set_mass planet_update) = mass q) as ->.
    { destruct (set_mass planet_update) as [v|]; [|done]. by rewrite (Hmass v). }
    assert (default (orbital_period q) (set_orbital_period planet_update)
            = orbital_period q) as ->.
    { destruct (set_orbital_period planet_update) as [v|]; [|done].
      by rewrite (Hperiod v). }
    simpl. rewrite decide_True; [done|]. by destruct q. }
  unfold commit_update. rewrite Hrow. rewrite decide_False.
  - f_equal. destruct db as [ps us]. simpl in *. f_equal.
    rewrite <- (list_fmap_id ps) at 2. apply list_fmap_ext.
    intros i q' Hq'. case_decide as Hsame; [|done].
    unfold id. symmetry.
    apply (NoDup_fmap_eq planet_id ps); [done| |done|done].
    by eapply list_elem_of_lookup_2.
  - rewrite Exists_exists. intros (q' & Hq' & Hne & Hname).
    destruct Hne. f_equal.
    by apply (NoDup_fmap_eq name (planets db)).
Qed.

(** X6.  The two uniqueness constraints of the table survive every create,
    update and delete, whatever the answer. *)
Theorem planet_constraints_kept db u now :
  unique_ids db → unique_names db →
  (∀ planet,
     unique_ids (snd (create_planet planet db u now)) ∧
     unique_names (snd (create_planet planet db u now))) ∧
  (∀ pid planet_update,
     unique_ids (snd (update_planet pid planet_update db u now)) ∧
     unique_names (snd (update_planet pid planet_update db u now))) ∧
  (∀ pid,
     unique_ids (snd (delete_planet pid db u)) ∧
     unique_names (snd (delete_planet pid db u))).
Proof.
  intros Hids Hnames. unfold unique_ids, unique_names in *. split_and!.
  - intros planet. unfold create_planet, query_planet_by_name.
    destruct (first_with name (new_name planet) (planets db)) as [q|] eqn:Hname;
      [done|].
    simpl. rewrite !fmap_app. simpl. split.
    + apply NoDup_app. split_and!; [done| |apply NoDup_singleton].
      intros x Hx ->%list_elem_of_singleton.
      apply list_elem_of_fmap in Hx as (q & Hq & Hin).
      pose proof (next_planet_id_fresh db q Hin). lia.
    + apply NoDup_app. split_and!; [done| |apply NoDup_singleton].
      intros x Hx ->%list_elem_of_singleton.
      apply list_elem_of_fmap in Hx as (q & Hq & Hin).
      by destruct (proj1 (first_with_None name (new_name planet) (planets db)) Hname q).
  - intros pid planet_update. unfold update_planet.
    destruct (query_planet db pid) as [old|] eqn:Hq; [|done].
    unfold commit_update.
    destruct (flushed_row old (setattrs planet_update old) now) as [row|] eqn:Hrow;
      [|done].
    case_decide as Hdup; [done|]. simpl.
    assert (planet_id row = planet_id old) as Hid.
    { destruct (fastapi_row_key old (setattrs planet_update old) now row Hrow). done. }
    rewrite Exists_exists in Hdup.
    split.
    + rewrite <- list_fmap_compose.
      rewrite (list_fmap_ext _ planet_id (planets db)); [done|].
      intros i q _. simpl. case_decide; congruence.
    + clear Hq. revert Hids Hnames Hdup.
      generalize (planets db). intros l.
      induction l as [|a l IH]; intros Hids Hnames Hdup; [constructor|].
      rewrite !fmap_cons in *.
      apply NoDup_cons in Hids as [Hida Hids].
      apply NoDup_cons in Hnames as [Hnamea Hnames].
      assert (∀ q, q ∈ l → planet_id q ≠ planet_id old → name q ≠ name row) as Hl.
      { intros q Hq Hne Heq. apply Hdup. exists q. split; [by right | done]. }
      apply NoDup_cons. split.
      * intros Hin. apply list_elem_of_fmap in Hin as (q' & Hname' & Hin).
        apply list_elem_of_fmap in Hin as (q & -> & Hin).
        destruct (decide (planet_id a = planet_id old)) as [Ha|Ha].
        -- case_decide as Hq; [|by apply (Hl q)].
           apply Hida. rewrite Ha, <- Hq. by apply list_elem_of_fmap_2.
        -- case_decide as Hq.
           ++ apply Hdup. exists a. split; [by left | done].
           ++ apply Hnamea. rewrite Hname'. by apply list_elem_of_fmap_2.
      * apply IH; [done..|].
        intros (q & Hq & Hne & Heq). apply Hdup. exists q. split; [by right | done].
  - intros pid. unfold delete_planet.
    destruct (query_planet db pid) as [old|] eqn:Hq; [|done]. simpl.
    split; by apply NoDup_fmap_filter.
Qed.

(** *** The guard *)

(** X7.  The guard authenticates nobody without a token: when it returns a
    user, the request carried bearer credentials whose token the codec
    accepts, the subject of the token is that user's username, and the
    user is a row of table [users]. *)
Theorem current_user_is_token_subject authorization db now u :
  current_user_dependency authorization db now = Return u →
  u ∈ users db ∧
  ∃ creds payload,
    HTTPBearer authorization = Return creds ∧
    jwt_decode (credentials creds) SECRET_KEY [ALGORITHM] now = Some payload ∧
    payload !! "sub" = Some (ClaimStr (username u)).
Proof.
  unfold current_user_dependency.
  destruct (HTTPBearer authorization) as [creds|e|w]; [|done..]. simpl.
  unfold get_current_user, verify_token.
  destruct (jwt_decode (credentials creds) SECRET_KEY [ALGORITHM] now)
    as [payload|] eqn:Hdec; [|done].
  destruct (payload !! "sub") as [[uname|t]|] eqn:Hsub; [|done..]. simpl.
  unfold query_user.
  destruct (first_with username uname (users db)) as [v|] eqn:Hv; [|done].
  intros [= ->]. apply first_with_Some in Hv as [Hin <-].
  split; [done|]. by exists creds, payload.
Qed.

(** X8.  Nothing is written for a request the guard turns away: each of the
    three guarded routes then answers with the guard's 403 or 401 and
    leaves the database as it was. *)
Theorem no_write_without_authentication authorization db now :
  (∀ u, current_user_dependency authorization db now ≠ Return u) →
  ∃ e,
    (status_code e = 403 ∨ status_code e = 401) ∧
    (∀ planet, post_planets authorization planet db now = (Raise e, db)) ∧
    (∀ pid planet_update,
       put_planet authorization pid planet_update db now = (Raise e, db)) ∧
    (∀ pid, delete_planet_route authorization pid db now = (Raise e, db)).
Proof.
  intros Hrej.
  destruct (FastApiFacts.current_user_dependency_cases authorization db now)
    as [(u & Hu & _)|(e & He & Hstatus)]; [by destruct (Hrej u)|].
  exists e. split.
  { destruct Hstatus as [?| ->]; [by left | by right]. }
  unfold post_planets, put_planet, delete_planet_route, guarded.
  rewrite He. by split_and!.
Qed.

(** X9.  Login and the guard fit together: for a user of the register
    (usernames unique) and a password that verifies, login answers with a
    bearer token; presented to the guard, the token authenticates as that
    user at any time before 30 minutes have passed, and is rejected with
    401 at any time after. *)
Theorem login_token_authenticates db u password now :
  NoDup (username <$> users db) →
  u ∈ users db →
  verify_password password (hashed_password u) = true →
  ∃ token,
    login (username u) password db now
      = Return (<["token_type" := "bearer"]> {["access_token" := token]}) ∧
    (∀ later, later < now + 1800 →
       current_user_dependency (Some ("Bearer " +:+ token)) db later = Return u) ∧
    (∀ later, now + 1800 < later →
       current_user_dependency (Some ("Bearer " +:+ token)) db later
         = Raise credentials_exception).
Proof.
  intros Hnd Hin Hv.
  exists (jwt_encode (access_claims (username u) (now + 1800)) SECRET_KEY ALGORITHM).
  assert (authenticate_user db (username u) password = Some u) as Hauth
    by (by apply FastApiFacts.authenticate_user_Some).
  assert (jwt_encode (access_claims (username u) (now + 1800)) SECRET_KEY ALGORITHM
          ≠ EmptyString) as Htok.
  { apply (FastApiFacts.decoded_token_nonempty _ SECRET_KEY [ALGORITHM] now
             (access_claims (username u) (now + 1800))).
    apply jwt_decode_fresh; [apply jwt_hs256 | by left | lia]. }
  split_and!.
  - unfold login. by rewrite Hauth.
  - intros later Hlater.
    rewrite FastApiFacts.current_user_dependency_bearer by done.
    apply (FastApiFacts.get_current_user_known_subject _
             (access_claims (username u) (now + 1800))); [done..| |].
    + simpl. apply jwt_decode_fresh; [apply jwt_hs256 | by left | done].
    + apply FastApiFacts.access_claims_sub.
  - intros later Hlater.
    rewrite FastApiFacts.current_user_dependency_bearer by done.
    unfold get_current_user. simpl.
    by rewrite FastApiFacts.verify_token_expired.
Qed.

End planets.
End FastApiMore.

(** ** flask_app.py: numbers and comparisons *)

Module FlaskNumbers.
Import FlaskApp.

Lemma Z2Qc_of_Z z : Z2Qc z = Qc_of_Z z.
Proof. apply Qc_decomp. simpl. apply inject_Z_Qred. Qed.

Lemma Z2Qc_inj' n m : Z2Qc n = Z2Qc m → n = m.
Proof. rewrite !Z2Qc_of_Z. apply Z2Qc_inj. Qed.

Lemma Z2Qc_le_inv n m : (Z2Qc n ≤ Z2Qc m)%Qc → n ≤ m.
Proof. rewrite !Z2Qc_of_Z. apply Z2Qc_inj_le. Qed.

(** [max] keeps an item that is at least as large as every other. *)
Lemma max_step_l best item : (snd best ≤ snd (max_step best item))%Qc.
Proof.
  unfold max_step.
  destruct (Qclt_le_dec (snd best) (snd item)); [by apply Qclt_le_weak | apply Qcle_refl].
Qed.

Lemma max_step_r best item : (snd item ≤ snd (max_step best item))%Qc.
Proof.
  unfold max_step. by destruct (Qclt_le_dec (snd best) (snd item)); [apply Qcle_refl|].
Qed.

Lemma foldl_max_step_init a l : (snd a ≤ snd (foldl max_step a l))%Qc.
Proof.
  revert a. induction l as [|b l IH]; intros a; simpl; [apply Qcle_refl|].
  eapply Qcle_trans; [apply (max_step_l a b) | apply IH].
Qed.

Lemma foldl_max_step_elem a l x :
  x ∈ l → (snd x ≤ snd (foldl max_step a l))%Qc.
Proof.
  revert a. induction l as [|b l IH]; intros a Hx; simpl.
  - by apply elem_of_nil in Hx.
  - apply elem_of_cons in Hx as [->|Hx]; [|by apply IH].
    eapply Qcle_trans; [apply (max_step_r a b) | apply foldl_max_step_init].
Qed.

Lemma foldl_max_step_in a l : foldl max_step a l ∈ a :: l.
Proof.
  revert a. induction l as [|b l IH]; intros a; simpl; [apply list_elem_of_here|].
  specialize (IH (max_step a b)). apply elem_of_cons in IH as [->|IH].
  - unfold max_step. destruct (Qclt_le_dec (snd a) (snd b)).
    + apply list_elem_of_further, list_elem_of_here.
    + apply list_elem_of_here.
  - by do 2 apply list_elem_of_further.
Qed.

(** Adding 1 gives an int only for an int or a bool, and then the int
    one above the number it counts as. *)
Lemma add_one_int x z :
  add_one x = Some (JInt z) → json_num x = Some (Z2Qc (z - 1)).
Proof.
  destruct x as [|b|y|q|s]; simpl; try done.
  - intros [= <-]. destruct b; by f_equal.
  - intros [= <-]. do 2 f_equal. lia.
Qed.

(** A value that compares equal to an int counts as that number. *)
Lemma py_eq_int v z : py_eq v (JInt z) = true → json_num v = Some (Z2Qc z).
Proof.
  destruct v as [|b|y|q|s]; simpl; try done.
  - intros Hb. apply bool_decide_eq_true in Hb. by rewrite Hb.
  - intros Hy. apply bool_decide_eq_true in Hy. by rewrite Hy.
  - intros Hq. apply bool_decide_eq_true in Hq. by rewrite Hq.
Qed.

Lemma py_eq_refl v : py_eq v v = true.
Proof. destruct v as [|b|y|q|s]; simpl; try done; by apply bool_decide_eq_true. Qed.

Lemma has_id_seeded i pid (p : gmap string json) :
  p !! "id" = Some (JInt i) → has_id pid p = bool_decide (i = pid).
Proof.
  intros Hid. unfold has_id. rewrite Hid. simpl.
  apply bool_decide_ext. split; [apply Z2Qc_inj' | by intros ->].
Qed.

End FlaskNumbers.

(** ** flask_app.py: the decorator, login and the planet views *)

Module FlaskMore.
Import FlaskApp FlaskSpec FlaskNumbers.

Section views.
Context `{!JwtLib, !CryptContext}.

(** X10.  The decorator lets nobody through without a token: either it answers
    with a 401 and leaves the state as it was, or the header has a second
    field that the codec accepts as a token, the subject of the token is
    the username of an entry of [users_db], and the view is run with that
    entry. *)
Theorem token_required_outcomes f authorization st now :
  (∃ text, token_required f authorization st now = (message text 401, st)) ∨
  (∃ u header token payload,
     authorization = Some header ∧
     Py.split_space header !! 1%nat = Some token ∧
     jwt_decode token SECRET_KEY [ALGORITHM] now = Some payload ∧
     payload !! "sub" = Some (ClaimStr (username u)) ∧
     u ∈ users_db st ∧
     token_required f authorization st now = f u st now).
Proof.
  destruct (FlaskFacts.token_required_cases f authorization st now)
    as [(u & Hacc & Hrun)|Hrej]; [right | by left].
  apply FlaskFacts.accepted_subject in Hacc
    as (Hin & header & token & payload & -> & Hsplit & Hdec & Hsub).
  by exists u, header, token, payload.
Qed.

Lemma split_bearer token :
  Py.split_space ("Bearer " +:+ token) = "Bearer" :: Py.split_space token.
Proof. reflexivity. Qed.

(** X11.  Login and the decorator fit together: for an entry of [users_db]
    (usernames unique) with a username that is not empty, and a password
    that verifies, login answers with a token; if the token has no space
    in it, the header [Bearer <token>] is let through as that user at any
    time before 30 minutes have passed, and answered with 401 "Token is
    invalid" at any time after. *)
Theorem flask_login_token_admits st u password now :
  NoDup (username <$> users_db st) →
  u ∈ users_db st →
  username u ≠ EmptyString →
  verify_password password (hashed_password u) = true →
  Py.split_space
    (jwt_encode (access_claims (username u) (now + 1800)) SECRET_KEY ALGORITHM)
    = [jwt_encode (access_claims (username u) (now + 1800)) SECRET_KEY ALGORITHM] →
  login (username u) password st now = login_ok u now ∧
  (∀ f later, later < now + 1800 →
     token_required f
       (Some ("Bearer " +:+
              jwt_encode (access_claims (username u) (now + 1800))
                         SECRET_KEY ALGORITHM)) st later
     = f u st later) ∧
  (∀ f later, now + 1800 < later →
     token_required f
       (Some ("Bearer " +:+
              jwt_encode (access_claims (username u) (now + 1800))
                         SECRET_KEY ALGORITHM)) st later
     = (message "Token is invalid" 401, st)).
Proof.
  intros Hnd Hin Hname Hv Hnospace.
  set (token := jwt_encode (access_claims (username u) (now + 1800))
                           SECRET_KEY ALGORITHM) in *.
  assert (Py.split_space ("Bearer " +:+ token) !! 1%nat = Some token) as Hsplit.
  { rewrite split_bearer, Hnospace. done. }
  split_and!.
  - by apply FlaskFacts.login_Some.
  - intros f later Hlater. apply FlaskFacts.token_required_accepted.
    apply (FlaskFacts.accepted_valid_token _ token
             (access_claims (username u) (now + 1800))); try done.
    apply jwt_decode_fresh; [apply jwt_hs256 | by left | done].
  - intros f later Hlater.
    apply (FlaskFacts.token_required_invalid f _ token); [done| |].
    + apply (FastApiFacts.decoded_token_nonempty _ SECRET_KEY [ALGORITHM] now
               (access_claims (username u) (now + 1800))).
      apply jwt_decode_fresh; [apply jwt_hs256 | by left | lia].
    + by apply jwt_decode_expired; [apply jwt_hs256|].
Qed.

(** *** Creating a planet *)

(** An item of the list [max] runs over: the id of a planet with the
    number it counts as. *)
Lemma id_item_Some (p : gmap string json) x :
  (v ← p !! "id"; q ← json_num v; Some (v, q)) = Some x →
  p !! "id" = Some (fst x) ∧ json_num (fst x) = Some (snd x).
Proof.
  destruct (p !! "id") as [v|]; simpl; [|done].
  destruct (json_num v) as [q|] eqn:Hq; simpl; [|done]. by intros [= <-].
Qed.

Lemma add_one_is_Some x : is_Some (json_num x) → is_Some (add_one x).
Proof. destruct x; simpl; try done; by intros [? [=]]. Qed.

(** Where the new id comes from: it is 1 for an empty list, and otherwise
    one more than the id of a planet that is at least as large as every
    id in the list. *)
Lemma new_planet_id_Some st n :
  new_planet_id st = Some n →
  (planets_db st = [] ∧ n = JInt 1) ∨
  (∃ x q,
     add_one x = Some n ∧ json_num x = Some q ∧
     (∃ p, p ∈ planets_db st ∧ p !! "id" = Some x) ∧
     ∀ p v, p ∈ planets_db st → p !! "id" = Some v →
            ∃ q', json_num v = Some q' ∧ (q' ≤ q)%Qc).
Proof.
  unfold new_planet_id. intros Hn.
  destruct (mapM (λ p, v ← p !! "id"; q ← json_num v; Some (v, q)) (planets_db st))
    as [ids|] eqn:Hids; [|done].
  simpl in Hn. apply mapM_Some in Hids.
  destruct ids as [|a ids].
  { left. apply Forall2_nil_inv_r in Hids. split; [done|]. by injection Hn as <-. }
  right. set (best := foldl max_step a ids) in *.
  assert (best ∈ a :: ids) as Hin by apply foldl_max_step_in.
  apply list_elem_of_lookup in Hin as [k Hk].
  destruct (Forall2_lookup_r _ _ _ _ _ Hids Hk) as (p0 & Hp0 & Hbest).
  apply id_item_Some in Hbest as [Hid0 Hnum0].
  exists (fst best), (snd best). split_and!; [done..| |].
  - exists p0. split; [by eapply list_elem_of_lookup_2 | done].
  - intros p v Hp Hv. apply list_elem_of_lookup in Hp as [i Hi].
    destruct (Forall2_lookup_l _ _ _ _ _ Hids Hi) as (y & Hy & Hpy).
    apply id_item_Some in Hpy as [Hidy Hnumy].
    assert (v = fst y) as -> by congruence.
    exists (snd y). split; [done|].
    destruct i as [|i]; simpl in Hy.
    + injection Hy as ->. apply foldl_max_step_init.
    + apply foldl_max_step_elem. by eapply list_elem_of_lookup_2.
Qed.

Lemma new_planet_id_is_Some st :
  (∀ p, p ∈ planets_db st → is_Some (p !! "id" ≫= json_num)) →
  is_Some (new_planet_id st).
Proof.
  intros Hall. unfold new_planet_id.
  destruct (mapM (λ p, v ← p !! "id"; q ← json_num v; Some (v, q)) (planets_db st))
    as [ids|] eqn:Hids.
  - simpl. apply mapM_Some in Hids.
    destruct ids as [|a ids]; [done|]. apply add_one_is_Some.
    pose proof (foldl_max_step_in a ids) as Hin.
    apply list_elem_of_lookup in Hin as [k Hk].
    destruct (Forall2_lookup_r _ _ _ _ _ Hids Hk) as (p0 & Hp0 & Hbest).
    apply id_item_Some in Hbest as [_ ->]. done.
  - apply mapM_None in Hids. apply Exists_exists in Hids as (p & Hp & Hnone).
    destruct (Hall p Hp) as [q Hq].
    destruct (p !! "id") as [v|]; simpl in *; [|done].
    rewrite Hq in Hnone. done.
Qed.

(** An int handed out as the new id compares unequal to every id in the
    list. *)
Lemma new_planet_id_unused st z :
  new_planet_id st = Some (JInt z) →
  ∀ p v, p ∈ planets_db st → p !! "id" = Some v → py_eq v (JInt z) = false.
Proof.
  intros Hn p v Hp Hv.
  destruct (new_planet_id_Some st _ Hn) as [[Hnil _]|(x & q & Hx & Hq & _ & Hmax)].
  { rewrite Hnil in Hp. by apply elem_of_nil in Hp. }
  apply add_one_int in Hx. rewrite Hx in Hq. injection Hq as <-.
  destruct (Hmax p v Hp Hv) as (q' & Hq' & Hle).
  destruct (py_eq v (JInt z)) eqn:Heq; [|done].
  apply py_eq_int in Heq. rewrite Heq in Hq'. injection Hq' as <-.
  apply Z2Qc_le_inv in Hle. lia.
Qed.

(** While every id in the list is an int, so is the new one, and it is
    greater than each. *)
Lemma new_planet_id_ints st :
  (∀ p, p ∈ planets_db st → ∃ z, p !! "id" = Some (JInt z)) →
  ∃ z, new_planet_id st = Some (JInt z) ∧
       ∀ p z', p ∈ planets_db st → p !! "id" = Some (JInt z') → z' < z.
Proof.
  intros Hints.
  destruct (new_planet_id_is_Some st) as [n Hn].
  { intros p Hp. destruct (Hints p Hp) as [z ->]. by eexists. }
  destruct (new_planet_id_Some st n Hn)
    as [[Hnil ->]|(x & q & Hx & Hq & (p0 & Hp0 & Hid0) & Hmax)].
  { exists 1. split; [done|]. intros p z' Hp. rewrite Hnil in Hp.
    by apply elem_of_nil in Hp. }
  destruct (Hints p0 Hp0) as [z0 Hz0].
  assert (x = JInt z0) as -> by congruence.
  simpl in Hx, Hq. injection Hx as <-. injection Hq as <-.
  exists (z0 + 1). split; [done|]. intros p z' Hp Hz'.
  destruct (Hmax p (JInt z') Hp Hz') as (q' & Hq' & Hle).
  simpl in Hq'. injection Hq' as <-. apply Z2Qc_le_inv in Hle. lia.
Qed.

Lemma create_planet_Some data u st now nm ty dist rad n :
  data !! "name" = Some nm →
  (∀ p, p ∈ planets_db st → has_name nm p = false) →
  data !! "planet_type" = Some ty →
  data !! "distance_from_sun" = Some dist →
  data !! "radius" = Some rad →
  new_planet_id st = Some n →
  ∃ planet,
    create_planet data u st now
      = ({| status := 201; body := JsonObject planet |},
         {| planets_db := planets_db st ++ [planet]; users_db := users_db st |}) ∧
    has_planet_keys planet ∧
    planet !! "id" = Some n.
Proof.
  intros Hnm Hfresh Hty Hdist Hrad Hn. unfold create_planet.
  rewrite Hnm.
  assert (list_find (λ p, has_name nm p = true) (planets_db st) = None) as ->.
  { apply list_find_None, Forall_forall. intros p Hp. by rewrite (Hfresh p Hp). }
  rewrite Hn, Hty, Hdist, Hrad. simpl.
  eexists. by split_and!.
Qed.

(** X12.  A create request with the four required keys and a name that no
    planet has, sent while every id in the list is a number, is answered
    with 201 and the new dictionary: it has the ten keys, the values of
    the body ([null] for an optional key the body leaves out) and the id
    [max + 1], and it is appended to the list; the users are not touched.
    When the new id is an int, no planet in the list compares equal to
    it; and it is an int, greater than each id, while every id in the list
    is an int.  (After a float id the sum is rounded, and can be an id in
    use.) *)
Theorem flask_create_planet_new data u st now nm ty dist rad n :
  data !! "name" = Some nm →
  (∀ p, p ∈ planets_db st → has_name nm p = false) →
  data !! "planet_type" = Some ty →
  data !! "distance_from_sun" = Some dist →
  data !! "radius" = Some rad →
  new_planet_id st = Some n →
  ∃ planet,
    create_planet data u st now
      = ({| status := 201; body := JsonObject planet |},
         {| planets_db := planets_db st ++ [planet]; users_db := users_db st |}) ∧
    has_planet_keys planet ∧
    planet !! "id" = Some n ∧
    planet !! "name" = Some nm ∧
    planet !! "planet_type" = Some ty ∧
    planet !! "distance_from_sun" = Some dist ∧
    planet !! "radius" = Some rad ∧
    planet !! "description" = Some (default JNull (data !! "description")) ∧
    planet !! "mass" = Some (default JNull (data !! "mass")) ∧
    planet !! "orbital_period" = Some (default JNull (data !! "orbital_period")) ∧
    (∀ z, n = JInt z →
          ∀ p v, p ∈ planets_db st → p !! "id" = Some v → py_eq v n = false) ∧
    ((∀ p, p ∈ planets_db st → ∃ z, p !! "id" = Some (JInt z)) →
     ∃ z, n = JInt z ∧
          ∀ p z', p ∈ planets_db st → p !! "id" = Some (JInt z') → z' < z).
Proof.
  intros Hnm Hfresh Hty Hdist Hrad Hn. unfold create_planet.
  rewrite Hnm.
  assert (list_find (λ p, has_name nm p = true) (planets_db st) = None) as ->.
  { apply list_find_None, Forall_forall. intros p Hp. by rewrite (Hfresh p Hp). }
  rewrite Hn, Hty, Hdist, Hrad. simpl.
  eexists. split; [reflexivity|]. split_and!; try done.
  - intros z ->. by apply new_planet_id_unused.
  - intros Hints. destruct (new_planet_id_ints st Hints) as (z & Hz & Hlt).
    exists z. split; [congruence | done].
Qed.

(** X13.  A create request is answered with 500, and nothing is changed, when
    the body has no name, or when the name is new but the body lacks
    another required key or some planet of the list has an id that is not
    a number. *)
Theorem flask_create_planet_error data u st now :
  data !! "name" = None ∨
  (∃ nm, data !! "name" = Some nm ∧
         (∀ p, p ∈ planets_db st → has_name nm p = false) ∧
         (data !! "planet_type" = None ∨
          data !! "distance_from_sun" = None ∨
          data !! "radius" = None ∨
          ∃ p, p ∈ planets_db st ∧ p !! "id" ≫= json_num = None)) →
  create_planet data u st now = (internal_server_error, st).
Proof.
  unfold create_planet. intros [Hnm|(nm & Hnm & Hfresh & Hbad)]; rewrite Hnm; [done|].
  assert (list_find (λ p, has_name nm p = true) (planets_db st) = None) as ->.
  { apply list_find_None, Forall_forall. intros p Hp. by rewrite (Hfresh p Hp). }
  destruct Hbad as [Hty|[Hdist|[Hrad|(p & Hp & Hid)]]].
  - rewrite Hty. by destruct (new_planet_id st).
  - rewrite Hdist. destruct (new_planet_id st); [|done].
    by destruct (data !! "planet_type").
  - rewrite Hrad. destruct (new_planet_id st); [|done].
    destruct (data !! "planet_type"); [|done].
    by destruct (data !! "distance_from_sun").
  - assert (new_planet_id st = None) as ->; [|done].
    unfold new_planet_id.
    rewrite (mapM_None_2 (λ p, v ← p !! "id"; q ← json_num v; Some (v, q))
                         (planets_db st)); [done|].
    apply Exists_exists. exists p. split; [done|].
    destruct (p !! "id") as [v|]; simpl in *; [|done]. by rewrite Hid.
Qed.

(** What a 201 answer of the create view means. *)
Lemma flask_create_planet_201 data u st now resp st' :
  create_planet data u st now = (resp, st') → status resp = 201 →
  ∃ nm ty dist rad n,
    data !! "name" = Some nm ∧
    (∀ p, p ∈ planets_db st → has_name nm p = false) ∧
    data !! "planet_type" = Some ty ∧
    data !! "distance_from_sun" = Some dist ∧
    data !! "radius" = Some rad ∧
    new_planet_id st = Some n.
Proof.
  unfold create_planet.
  destruct (data !! "name") as [nm|]; [|by intros [= <- <-]].
  destruct (list_find (λ p, has_name nm p = true) (planets_db st)) as [[i p]|] eqn:Hfind;
    [by intros [= <- <-]|].
  destruct (new_planet_id st) as [n|]; [|by intros [= <- <-]].
  destruct (data !! "planet_type") as [ty|]; [|by intros [= <- <-]].
  destruct (data !! "distance_from_sun") as [dist|]; [|by intros [= <- <-]].
  destruct (data !! "radius") as [rad|]; [|by intros [= <- <-]].
  intros _ _. exists nm, ty, dist, rad, n. split_and!; try done.
  intros p Hp. apply list_find_None in Hfind. rewrite Forall_forall in Hfind.
  specialize (Hfind p Hp). by destruct (has_name nm p).
Qed.

(** X14.  Round trip of create and read: when the create view answers 201
    with a dictionary whose id is the int [z], the view [get_planet]
    called with [z] afterwards gives that dictionary, and it is the last
    entry of [GET /planets].  (A new id that is a float, as after a float
    id, is not covered: see [new_planet_id].) *)
Theorem flask_create_then_get data u st now planet st' z :
  create_planet data u st now
    = ({| status := 201; body := JsonObject planet |}, st') →
  planet !! "id" = Some (JInt z) →
  get_planet z st' = {| status := 200; body := JsonObject planet |} ∧
  get_planets st' = get_planets st ++ [planet].
Proof.
  intros Hrun Hid.
  destruct (flask_create_planet_201 data u st now _ _ Hrun eq_refl)
    as (nm & ty & dist & rad & n & Hnm & Hfresh & Hty & Hdist & Hrad & Hn).
  destruct (create_planet_Some data u st now nm ty dist rad n)
    as (planet' & Hrun' & _ & Hid'); try done.
  rewrite Hrun' in Hrun. injection Hrun as -> <-.
  rewrite Hid in Hid'. injection Hid' as <-.
  pose proof (new_planet_id_unused st z Hn) as Hnew.
  unfold get_planet, get_planets, find_planet. simpl. split; [|done].
  assert (list_find (λ p, has_id z p = true) (planets_db st ++ [planet])
          = Some (length (planets_db st), planet)) as ->; [|done].
  apply list_find_app_Some. right. split_and!.
  - done.
  - apply list_find_None, Forall_forall. intros p Hp. unfold has_id.
    destruct (p !! "id") as [v|] eqn:Hv; [|done].
    by rewrite (Hnew p v Hp Hv).
  - rewrite Nat.sub_diag. simpl. rewrite decide_True; [done|].
    unfold has_id. rewrite Hid. apply py_eq_refl.
Qed.

(** *** Deleting a planet *)

(** X15.  A delete request for an id that some planet has is answered with
    204; every planet with that id is gone, the others are there in their
    order, and the users are as before.  Reading, updating or deleting
    the id afterwards gives 404. *)
Theorem flask_delete_planet_removes pid u st now i p :
  find_planet st pid = Some (i, p) →
  ∃ st',
    delete_planet pid u st now = ({| status := 204; body := Text "" |}, st') ∧
    planets_db st' = filter (λ p, has_id pid p = false) (planets_db st) ∧
    users_db st' = users_db st ∧
    get_planet pid st' = not_found ∧
    (∀ now', delete_planet pid u st' now' = (not_found, st')) ∧
    (∀ data now', update_planet pid data u st' now' = (not_found, st')).
Proof.
  intros Hfind. unfold delete_planet at 1. rewrite Hfind.
  eexists. split; [reflexivity|]. simpl.
  assert (find_planet
            {| planets_db := filter (λ p, has_id pid p = false) (planets_db st);
               users_db := users_db st |} pid = None) as Hgone.
  { apply FlaskFacts.find_planet_None. simpl. intros q Hq.
    by apply list_elem_of_filter in Hq as [? _]. }
  split_and!; try done.
  - unfold get_planet. by rewrite Hgone.
  - intros now'. unfold delete_planet. by rewrite Hgone.
  - intros data now'. unfold update_planet. by rewrite Hgone.
Qed.

(** *** Updating a planet *)

Lemma patched_is_Some data planet k :
  is_Some (patched data planet k) ↔ is_Some (planet !! k).
Proof.
  unfold patched. destruct (planet !! k) as [old|]; [|done].
  destruct (data !! k) as [v|]; [|done]. by destruct (is_not_none v).
Qed.

(** The loop over the body adds no key and removes none. *)
Lemma update_fields_dom data planet : dom (update_fields data planet) = dom planet.
Proof.
  apply set_eq. intros k.
  by rewrite !elem_of_dom, FlaskFacts.update_fields_lookup, patched_is_Some.
Qed.

(** X16.  An update request for an id that some planet has is answered with
    200 and the dictionary as changed, which takes the place of the old
    one in the list.  In it ["updated_at"] is the time of the request,
    also when the body gives one; every other key of the planet that the
    body gives with a value other than [null] has that value, ["id"] and
    ["created_at"] included; every other key keeps its value; no key is
    added but ["updated_at"] and none is removed. *)
Theorem flask_update_planet_effect pid data u st now i p :
  find_planet st pid = Some (i, p) →
  ∃ p',
    update_planet pid data u st now
      = ({| status := 200; body := JsonObject p' |},
         {| planets_db := <[i := p']> (planets_db st); users_db := users_db st |}) ∧
    p' !! "updated_at" = Some (JStr (isoformat now)) ∧
    (∀ k, k ≠ "updated_at" → p' !! k = patched data p k) ∧
    dom p' = dom p ∪ {["updated_at"]}.
Proof.
  intros Hfind. unfold update_planet. rewrite Hfind.
  eexists. split; [reflexivity|]. split_and!.
  - by rewrite lookup_insert_eq.
  - intros k Hk. rewrite lookup_insert_ne by done.
    apply FlaskFacts.update_fields_lookup.
  - rewrite dom_insert_L, update_fields_dom. apply (comm_L (∪)).
Qed.

(** *** The keys of a planet *)

(** X17.  Every view leaves each planet of the list with the ten keys of a
    planet, if it had them: the create view appends a dictionary with
    these keys or nothing, the update view neither adds nor removes a key,
    the delete view only drops dictionaries. *)
Theorem flask_planet_keys_kept st u now :
  Forall has_planet_keys (planets_db st) →
  (∀ data, Forall has_planet_keys (planets_db (snd (create_planet data u st now)))) ∧
  (∀ pid data,
     Forall has_planet_keys (planets_db (snd (update_planet pid data u st now)))) ∧
  (∀ pid, Forall has_planet_keys (planets_db (snd (delete_planet pid u st now)))).
Proof.
  intros Hkeys. split_and!.
  - intros data.
    destruct (create_planet data u st now) as [resp st'] eqn:Hrun. simpl.
    destruct (decide (status resp = 201)) as [Hok|Hfail].
    + destruct (flask_create_planet_201 data u st now _ _ Hrun Hok)
        as (nm & ty & dist & rad & n & Hnm & Hfresh & Hty & Hdist & Hrad & Hn).
      destruct (create_planet_Some data u st now nm ty dist rad n)
        as (planet & Hrun' & Hnew & _); try done.
      rewrite Hrun' in Hrun. injection Hrun as _ <-. simpl.
      apply Forall_app. split; [done | by apply Forall_singleton].
    + assert (st' = st) as ->; [|done].
      revert Hrun. unfold create_planet. repeat case_match; intros [= <- <-]; done.
  - intros pid data. unfold update_planet.
    destruct (find_planet st pid) as [[i p]|] eqn:Hfind; [|done]. simpl.
    apply Forall_insert; [done|].
    pose proof Hfind as Hp. unfold find_planet in Hp.
    apply list_find_Some in Hp as (Hp & _ & _).
    assert (has_planet_keys p) as Hdom.
    { rewrite Forall_forall in Hkeys. apply Hkeys. by eapply list_elem_of_lookup_2. }
    unfold has_planet_keys in *. rewrite dom_insert_L, update_fields_dom, Hdom.
    unfold planet_keys. set_solver.
  - intros pid. unfold delete_planet.
    destruct (find_planet st pid) as [[i p]|]; [|done]. simpl.
    rewrite Forall_forall in *. intros q Hq.
    apply list_elem_of_filter in Hq as [_ Hq]. by apply Hkeys.
Qed.

(** *** Seeding *)

Lemma seed_planet_Some i planet_data now :
  seedable planet_data →
  ∃ planet,
    seed_planet i planet_data now = Some planet ∧
    has_planet_keys planet ∧
    planet !! "id" = Some (JInt i) ∧
    planet !! "name" = planet_data !! "name" ∧
    planet !! "planet_type" = planet_data !! "planet_type" ∧
    planet !! "distance_from_sun" = planet_data !! "distance_from_sun" ∧
    planet !! "radius" = planet_data !! "radius" ∧
    planet !! "description" = planet_data !! "description" ∧
    planet !! "mass" = Some (default JNull (planet_data !! "mass")) ∧
    planet !! "orbital_period"
      = Some (default JNull (planet_data !! "orbital_period")).
Proof.
  intros ([nm Hnm] & [ty Hty] & [dist Hdist] & [rad Hrad] & [desc Hdesc]).
  unfold seed_planet. rewrite Hnm, Hty, Hdist, Hrad, Hdesc. simpl.
  eexists. split; [reflexivity|]. by split_and!.
Qed.

Lemma seed_planet_None i planet_data now :
  ¬ seedable planet_data → seed_planet i planet_data now = None.
Proof.
  intros Hbad. unfold seed_planet, seedable in *.
  destruct (planet_data !! "name"); [|done].
  destruct (planet_data !! "planet_type"); [|done].
  destruct (planet_data !! "distance_from_sun"); [|done].
  destruct (planet_data !! "radius"); [|done].
  destruct (planet_data !! "description"); [|done].
  destruct Hbad. by split_and!.
Qed.

Lemma good_prefix_all records :
  good_prefix records = records ↔ Forall seedable records.
Proof.
  induction records as [|r rest IH]; simpl; [by split|].
  rewrite Forall_cons. case_decide as Hr.
  - split.
    + intros [= Hrest]. split; [done | by apply IH].
    + intros [_ Hrest]. f_equal. by apply IH.
  - split; [done | tauto].
Qed.

Lemma load_planets_spec records : ∀ i now planets,
  ∃ loaded,
    load_planets i records now planets
      = (planets ++ loaded, bool_decide (good_prefix records = records)) ∧
    length loaded = length (good_prefix records) ∧
    (∀ (k : nat) planet_data,
       good_prefix records !! k = Some planet_data →
       seedable planet_data ∧
       loaded !! k = seed_planet (i + Z.of_nat k) planet_data now).
Proof.
  induction records as [|r rest IH]; intros i now planets; simpl.
  - exists []. rewrite app_nil_r. by split_and!.
  - destruct (decide (seedable r)) as [Hr|Hr].
    + destruct (seed_planet_Some i r now Hr) as (planet & Hseed & _).
      rewrite Hseed.
      destruct (IH (i + 1) now (planets ++ [planet])) as (loaded & -> & Hlen & Hall).
      exists (planet :: loaded). split_and!.
      * rewrite <- app_assoc. simpl. do 2 f_equal.
        apply bool_decide_ext. split; [by intros -> | by intros [= ->]].
      * simpl. by rewrite Hlen.
      * intros [|k] planet_data Hk; simpl in *.
        -- injection Hk as <-. by rewrite Z.add_0_r.
        -- destruct (Hall k planet_data Hk) as [Hs ->]. split; [done|].
           f_equal. lia.
    + rewrite (seed_planet_None i r now Hr).
      exists []. rewrite app_nil_r. by split_and!.
Qed.

Lemma load_planets_seeded records now planets :
  ∃ loaded,
    load_planets 1 records now planets
      = (planets ++ loaded, bool_decide (good_prefix records = records)) ∧
    length loaded = length (good_prefix records) ∧
    (∀ (k : nat) planet_data,
       good_prefix records !! k = Some planet_data →
       ∃ planet,
         loaded !! k = Some planet ∧
         has_planet_keys planet ∧
         planet !! "id" = Some (JInt (Z.of_nat k + 1)) ∧
         planet !! "name" = planet_data !! "name" ∧
         planet !! "planet_type" = planet_data !! "planet_type" ∧
         planet !! "distance_from_sun" = planet_data !! "distance_from_sun" ∧
         planet !! "radius" = planet_data !! "radius" ∧
         planet !! "description" = planet_data !! "description" ∧
         planet !! "mass" = Some (default JNull (planet_data !! "mass")) ∧
         planet !! "orbital_period"
           = Some (default JNull (planet_data !! "orbital_period"))).
Proof.
  destruct (load_planets_spec records 1 now planets) as (loaded & Hrun & Hlen & Hall).
  exists loaded. split_and!; [done..|].
  intros k planet_data Hk. destruct (Hall k planet_data Hk) as [Hs ->].
  destruct (seed_planet_Some (1 + Z.of_nat k) planet_data now Hs) as (planet & -> & Hp).
  exists planet. split; [done|]. by rewrite (Z.add_comm (Z.of_nat k) 1).
Qed.

(** X18.  What [init_data] loads from the records of a seed file: it appends
    to the planets one dictionary for each record up to the first that
    lacks a required key, in the order of the file; the dictionary of the
    [k]-th record (from 0) has the ten keys of a planet, the id [k + 1],
    the record's five required values, and the record's mass and orbital
    period or [null].  The two users are appended only when every record
    was loaded; otherwise the users are as before, while the planets
    loaded up to there stay. *)
Theorem init_data_loads records salt_admin salt_test st now :
  ∃ loaded,
    planets_db (init_data (Some records) salt_admin salt_test st now)
      = planets_db st ++ loaded ∧
    length loaded = length (good_prefix records) ∧
    (∀ (k : nat) planet_data,
       good_prefix records !! k = Some planet_data →
       ∃ planet,
         loaded !! k = Some planet ∧
         has_planet_keys planet ∧
         planet !! "id" = Some (JInt (Z.of_nat k + 1)) ∧
         planet !! "name" = planet_data !! "name" ∧
         planet !! "planet_type" = planet_data !! "planet_type" ∧
         planet !! "distance_from_sun" = planet_data !! "distance_from_sun" ∧
         planet !! "radius" = planet_data !! "radius" ∧
         planet !! "description" = planet_data !! "description" ∧
         planet !! "mass" = Some (default JNull (planet_data !! "mass")) ∧
         planet !! "orbital_period"
           = Some (default JNull (planet_data !! "orbital_period"))) ∧
    users_db (init_data (Some records) salt_admin salt_test st now)
      = (if decide (Forall seedable records)
         then users_db st ++ [admin_user salt_admin now; test_user salt_test now]
         else users_db st).
Proof.
  unfold init_data.
  destruct (load_planets_seeded records now (planets_db st))
    as (loaded & -> & Hlen & Hall).
  exists loaded. split_and!; [by case_bool_decide | done..|].
  case_bool_decide as Hgood; case_decide as Hforall; try done.
  - by apply good_prefix_all in Hgood.
  - by apply good_prefix_all in Hforall.
Qed.

(** The register [init_data] leaves, started from the empty one: no
    entry, or the two entries ["admin"] and ["testuser"].  So a username of
    the register is never empty, and no two entries share one. *)
Lemma init_data_register data salt_admin salt_test st now :
  users_db st = [] →
  NoDup (username <$> users_db (init_data data salt_admin salt_test st now)) ∧
  ∀ u, u ∈ users_db (init_data data salt_admin salt_test st now) →
       username u = "admin" ∨ username u = "testuser".
Proof.
  intros Hnil. unfold init_data.
  destruct data as [records|]; [|rewrite Hnil; split; [constructor | by intros u ?%elem_of_nil]].
  destruct (load_planets 1 records now (planets_db st)) as [planets [|]]; simpl;
    rewrite Hnil; simpl.
  - split.
    + apply NoDup_cons. split; [|apply NoDup_singleton].
      intros Hin%list_elem_of_singleton. discriminate.
    + intros u Hu. apply elem_of_cons in Hu as [->|Hu]; [by left|].
      apply list_elem_of_singleton in Hu as ->. by right.
  - split; [constructor | by intros u ?%elem_of_nil].
Qed.

Lemma seeded_find_planet st pid :
  (∀ (k : nat) p, planets_db st !! k = Some p →
                  p !! "id" = Some (JInt (Z.of_nat k + 1))) →
  (∀ (k : nat) p, planets_db st !! k = Some p → pid = Z.of_nat k + 1 →
     find_planet st pid = Some (k, p)) ∧
  (pid < 1 ∨ Z.of_nat (length (planets_db st)) < pid →
     find_planet st pid = None).
Proof.
  intros Hids. unfold find_planet. split.
  - intros k p Hk ->. apply list_find_Some. split_and!; [done| |].
    + rewrite (has_id_seeded (Z.of_nat k + 1)) by auto. by apply bool_decide_eq_true.
    + intros j q Hj Hlt. rewrite (has_id_seeded (Z.of_nat j + 1)) by auto.
      rewrite bool_decide_eq_false_2; [done | lia].
  - intros Hout. apply list_find_None, Forall_forall. intros p Hp.
    apply list_elem_of_lookup in Hp as [k Hk].
    pose proof (lookup_lt_Some _ _ _ Hk).
    rewrite (has_id_seeded (Z.of_nat k + 1)) by auto.
    rewrite bool_decide_eq_false_2; [done | lia].
Qed.

Lemma seeded_new_planet_id st :
  (∀ (k : nat) p, planets_db st !! k = Some p →
                  p !! "id" = Some (JInt (Z.of_nat k + 1))) →
  new_planet_id st = Some (JInt (Z.of_nat (length (planets_db st)) + 1)).
Proof.
  intros Hids.
  destruct (new_planet_id_ints st) as (z & Hz & Hlt).
  { intros p Hp. apply list_elem_of_lookup in Hp as [k Hk].
    exists (Z.of_nat k + 1). by apply Hids. }
  rewrite Hz. do 2 f_equal.
  destruct (new_planet_id_Some st _ Hz)
    as [[Hnil [= ->]]|(x & q & Hx & _ & (p0 & Hp0 & Hid0) & _)].
  { by rewrite Hnil. }
  apply list_elem_of_lookup in Hp0 as [k Hk].
  rewrite (Hids k p0 Hk) in Hid0. injection Hid0 as <-.
  simpl in Hx. injection Hx as <-.
  pose proof (lookup_lt_Some _ _ _ Hk) as Hklt.
  destruct (lookup_lt_is_Some_2 (planets_db st) (length (planets_db st) - 1))
    as [p Hp]; [lia|].
  pose proof (Hlt p _ (list_elem_of_lookup_2 _ _ _ Hp) (Hids _ p Hp)). lia.
Qed.

(** X19.  Seeding and the read routes: after [init_data] has run on an empty
    list of planets, [GET /planets/(k+1)] gives the dictionary loaded
    from the [k]-th record, for every record up to the first that cannot
    be loaded; an id below 1 or above the number of planets loaded gives
    404; and the id the create view would give out next is that number
    plus 1. *)
Theorem init_data_then_reads records salt_admin salt_test st now :
  planets_db st = [] →
  (∀ (k : nat) planet_data,
     good_prefix records !! k = Some planet_data →
     ∃ planet,
       get_planets (init_data (Some records) salt_admin salt_test st now) !! k
         = Some planet ∧
       get_planet (Z.of_nat k + 1) (init_data (Some records) salt_admin salt_test st now)
         = {| status := 200; body := JsonObject planet |} ∧
       planet !! "id" = Some (JInt (Z.of_nat k + 1)) ∧
       planet !! "name" = planet_data !! "name") ∧
  (∀ pid, pid < 1 ∨ Z.of_nat (length (good_prefix records)) < pid →
     get_planet pid (init_data (Some records) salt_admin salt_test st now)
       = not_found) ∧
  new_planet_id (init_data (Some records) salt_admin salt_test st now)
    = Some (JInt (Z.of_nat (length (good_prefix records)) + 1)).
Proof.
  intros Hempty.
  destruct (load_planets_seeded records now (planets_db st))
    as (loaded & Hrun & Hlen & Hall).
  set (st' := init_data (Some records) salt_admin salt_test st now).
  assert (planets_db st' = loaded) as Hplanets.
  { unfold st', init_data. rewrite Hrun, Hempty. by case_bool_decide. }
  assert (∀ (k : nat) p, planets_db st' !! k = Some p →
            p !! "id" = Some (JInt (Z.of_nat k + 1))) as Hids.
  { rewrite Hplanets. intros k p Hk.
    destruct (lookup_lt_is_Some_2 (good_prefix records) k) as [r Hr].
    { rewrite <- Hlen. by eapply lookup_lt_Some. }
    destruct (Hall k r Hr) as (p' & Hp' & _ & Hid & _). congruence. }
  split_and!.
  - intros k planet_data Hk.
    destruct (Hall k planet_data Hk) as (planet & Hp & _ & Hid & Hname & _).
    rewrite <- Hplanets in Hp.
    exists planet. split_and!; try done.
    unfold get_planet.
    destruct (seeded_find_planet st' (Z.of_nat k + 1) Hids) as [Hfound _].
    by rewrite (Hfound k planet Hp eq_refl).
  - intros pid Hout. unfold get_planet.
    destruct (seeded_find_planet st' pid Hids) as [_ Hnone].
    rewrite Hnone; [done | by rewrite Hplanets, Hlen].
  - rewrite <- Hlen, <- Hplanets. by apply seeded_new_planet_id.
Qed.

(** *** Who am I *)

(** X20.  [GET /auth/me] changes nothing, and it answers with 200 only to a
    request whose header has a second field that the codec accepts as a
    token whose subject is the username of an entry of [users_db]; the
    answer then is that entry's id, username, email, active flag and
    creation time, and no other key. *)
Theorem flask_whoami_is_token_subject authorization st now :
  snd (get_current_user_info authorization st now) = st ∧
  (status (fst (get_current_user_info authorization st now)) = 200 →
   ∃ u header token payload o,
     authorization = Some header ∧
     Py.split_space header !! 1%nat = Some token ∧
     jwt_decode token SECRET_KEY [ALGORITHM] now = Some payload ∧
     payload !! "sub" = Some (ClaimStr (username u)) ∧
     u ∈ users_db st ∧
     fst (get_current_user_info authorization st now)
       = {| status := 200; body := JsonObject o |} ∧
     dom o = list_to_set ["id"; "username"; "email"; "is_active"; "created_at"] ∧
     o !! "id" = Some (JInt (user_id u)) ∧
     o !! "username" = Some (JStr (username u)) ∧
     o !! "email" = Some (JStr (email u)) ∧
     o !! "is_active" = Some (JBool (is_active u)) ∧
     o !! "created_at" = Some (JStr (user_created_at u))).
Proof.
  unfold get_current_user_info.
  match goal with
  | |- context [token_required ?f _ _ _] =>
      destruct (FlaskFacts.token_required_cases f authorization st now)
        as [(u & Hacc & ->)|(text & ->)]
  end; simpl.
  - split; [done|]. intros _.
    apply FlaskFacts.accepted_subject in Hacc
      as (Hin & header & token & payload & -> & Hsplit & Hdec & Hsub).
    exists u, header, token, payload. eexists. by split_and!.
  - split; [done|]. discriminate.
Qed.

End views.
End FlaskMore.

(** ** Runs on the sample data *)

Section more_runs.
Local Existing Instances Reference.jwt Reference.crypt.

Lemma sample_unique_ids : FastApiSpec.unique_ids Sample.db.
Proof. refine (bool_decide_unpack _ _). vm_compute. exact I. Defined.

Lemma sample_unique_names : FastApiSpec.unique_names Sample.db.
Proof. refine (bool_decide_unpack _ _). vm_compute. exact I. Defined.

Lemma sample_users_unique : NoDup (FastApi.username <$> FastApi.users Sample.db).
Proof. refine (bool_decide_unpack _ _). vm_compute. exact I. Defined.

Lemma sample_flask_users_unique :
  NoDup (FlaskApp.username <$> FlaskApp.users_db Sample.flask_state).
Proof. refine (bool_decide_unpack _ _). vm_compute. exact I. Defined.

Lemma sample_find_planet :
  FlaskApp.find_planet Sample.flask_state 1
    = Some (0%nat, Sample.flask_planet 1 "Test Planet 1").
Proof. reflexivity. Defined.

Lemma create_planet_new_name_run :
  ∃ row,
    FastApi.create_planet Sample.fresh Sample.db Sample.testuser 1000
      = (Return row,
         {| FastApi.planets := FastApi.planets Sample.db ++ [row];
            FastApi.users := FastApi.users Sample.db |}) ∧
    FastApiSpec.carries Sample.fresh row ∧
    FastApi.created_at row = 1000 ∧ FastApi.updated_at row = 1000 ∧
    (∀ q, q ∈ FastApi.planets Sample.db →
          FastApi.planet_id q < FastApi.planet_id row).
Proof.
  apply (FastApiMore.create_planet_new_name Sample.fresh Sample.db Sample.testuser 1000).
  intros q Hq. apply list_elem_of_In in Hq.
  destruct Hq as [<-|[<-|[]]]; discriminate.
Defined.

Lemma create_then_get_run :
  FastApi.get_planet 3
    {| FastApi.planets := [Sample.planet1; Sample.planet2; Sample.fresh_row];
       FastApi.users := FastApi.users Sample.db |} = Return Sample.fresh_row ∧
  FastApi.get_planets
    {| FastApi.planets := [Sample.planet1; Sample.planet2; Sample.fresh_row];
       FastApi.users := FastApi.users Sample.db |}
    = FastApi.get_planets Sample.db ++ [Sample.fresh_row] ∧
  (∀ pid, pid ≠ 3 →
     FastApi.get_planet pid
       {| FastApi.planets := [Sample.planet1; Sample.planet2; Sample.fresh_row];
          FastApi.users := FastApi.users Sample.db |}
     = FastApi.get_planet pid Sample.db).
Proof.
  apply (FastApiMore.create_then_get Sample.fresh Sample.db Sample.testuser 1000
           Sample.fresh_row).
  reflexivity.
Defined.

Lemma delete_planet_removes_run :
  FastApi.planets
    {| FastApi.planets := [Sample.planet2]; FastApi.users := FastApi.users Sample.db |}
    = filter (λ q, FastApi.planet_id q ≠ 1) (FastApi.planets Sample.db) ∧
  FastApi.users
    {| FastApi.planets := [Sample.planet2]; FastApi.users := FastApi.users Sample.db |}
    = FastApi.users Sample.db ∧
  FastApi.get_planet 1
    {| FastApi.planets := [Sample.planet2]; FastApi.users := FastApi.users Sample.db |}
    = Raise FastApiSpec.not_found ∧
  FastApi.delete_planet 1
    {| FastApi.planets := [Sample.planet2]; FastApi.users := FastApi.users Sample.db |}
    Sample.testuser
    = (Raise FastApiSpec.not_found,
       {| FastApi.planets := [Sample.planet2];
          FastApi.users := FastApi.users Sample.db |}) ∧
  (∀ pid', pid' ≠ 1 →
     FastApi.get_planet pid'
       {| FastApi.planets := [Sample.planet2];
          FastApi.users := FastApi.users Sample.db |}
     = FastApi.get_planet pid' Sample.db).
Proof.
  apply (FastApiMore.delete_planet_removes 1 Sample.db Sample.testuser).
  reflexivity.
Defined.

Lemma update_planet_applies_run :
  FastApi.planet_id Sample.planet1_redescribed = 1 ∧
  FastApiSpec.applied Sample.redescribe Sample.planet1_redescribed ∧
  FastApi.get_planet 1 (snd Sample.updated) = Return Sample.planet1_redescribed.
Proof.
  apply (FastApiMore.update_planet_applies 1 Sample.redescribe Sample.db
           Sample.testuser 1000).
  reflexivity.
Defined.

Lemma update_planet_same_values_run :
  FastApi.update_planet 1 Sample.same_values Sample.db Sample.testuser 1000
    = (Return Sample.planet1, Sample.db).
Proof.
  apply FastApiMore.update_planet_same_values.
  - apply sample_unique_ids.
  - apply sample_unique_names.
  - reflexivity.
  - unfold FastApiSpec.applied. split_and!; intros v; simpl; congruence.
Defined.

Lemma planet_constraints_kept_run :
  (∀ planet,
     FastApiSpec.unique_ids
       (snd (FastApi.create_planet planet Sample.db Sample.testuser 1000)) ∧
     FastApiSpec.unique_names
       (snd (FastApi.create_planet planet Sample.db Sample.testuser 1000))) ∧
  (∀ pid planet_update,
     FastApiSpec.unique_ids
       (snd (FastApi.update_planet pid planet_update Sample.db Sample.testuser 1000)) ∧
     FastApiSpec.unique_names
       (snd (FastApi.update_planet pid planet_update Sample.db Sample.testuser 1000))) ∧
  (∀ pid,
     FastApiSpec.unique_ids (snd (FastApi.delete_planet pid Sample.db Sample.testuser)) ∧
     FastApiSpec.unique_names
       (snd (FastApi.delete_planet pid Sample.db Sample.testuser))).
Proof.
  apply (FastApiMore.planet_constraints_kept Sample.db Sample.testuser 1000).
  - apply sample_unique_ids.
  - apply sample_unique_names.
Defined.

Lemma current_user_is_token_subject_run :
  Sample.testuser ∈ FastApi.users Sample.db ∧
  ∃ creds payload,
    FastApi.HTTPBearer
      (Some (Sample.bearer (Sample.token_for FastApi.SECRET_KEY "testuser")))
      = Return creds ∧
    jwt_decode (FastApi.credentials creds) FastApi.SECRET_KEY [FastApi.ALGORITHM] 1000
      = Some payload ∧
    payload !! "sub" = Some (ClaimStr (FastApi.username Sample.testuser)).
Proof.
  apply (FastApiMore.current_user_is_token_subject
           (Some (Sample.bearer (Sample.token_for FastApi.SECRET_KEY "testuser")))
           Sample.db 1000 Sample.testuser).
  reflexivity.
Defined.

Lemma no_write_without_authentication_run :
  ∃ e,
    (status_code e = 403 ∨ status_code e = 401) ∧
    (∀ planet,
       FastApi.post_planets (Some "Token abc") planet Sample.db 1000
         = (Raise e, Sample.db)) ∧
    (∀ pid planet_update,
       FastApi.put_planet (Some "Token abc") pid planet_update Sample.db 1000
         = (Raise e, Sample.db)) ∧
    (∀ pid,
       FastApi.delete_planet_route (Some "Token abc") pid Sample.db 1000
         = (Raise e, Sample.db)).
Proof.
  apply (FastApiMore.no_write_without_authentication (Some "Token abc") Sample.db 1000).
  intros u. vm_compute. discriminate.
Defined.

Lemma login_token_authenticates_run :
  ∃ token,
    FastApi.login "testuser" "testpass123" Sample.db 1000
      = Return (<["token_type" := "bearer"]> {["access_token" := token]}) ∧
    (∀ later, later < 1000 + 1800 →
       FastApi.current_user_dependency (Some ("Bearer " +:+ token)) Sample.db later
         = Return Sample.testuser) ∧
    (∀ later, 1000 + 1800 < later →
       FastApi.current_user_dependency (Some ("Bearer " +:+ token)) Sample.db later
         = Raise FastApi.credentials_exception).
Proof.
  apply (FastApiMore.login_token_authenticates Sample.db Sample.testuser
           "testpass123" 1000).
  - apply sample_users_unique.
  - apply list_elem_of_here.
  - reflexivity.
Defined.

Lemma flask_login_token_admits_run :
  FlaskApp.login "testuser" "test123" Sample.flask_state 1000
    = FlaskSpec.login_ok Sample.flask_testuser 1000 ∧
  (∀ f later, later < 1000 + 1800 →
     FlaskApp.token_required f
       (Some ("Bearer " +:+
              jwt_encode (access_claims "testuser" (1000 + 1800))
                         FlaskApp.SECRET_KEY FlaskApp.ALGORITHM))
       Sample.flask_state later
     = f Sample.flask_testuser Sample.flask_state later) ∧
  (∀ f later, 1000 + 1800 < later →
     FlaskApp.token_required f
       (Some ("Bearer " +:+
              jwt_encode (access_claims "testuser" (1000 + 1800))
                         FlaskApp.SECRET_KEY FlaskApp.ALGORITHM))
       Sample.flask_state later
     = (FlaskApp.message "Token is invalid" 401, Sample.flask_state)).
Proof.
  apply (FlaskMore.flask_login_token_admits Sample.flask_state Sample.flask_testuser
           "test123" 1000).
  - apply sample_flask_users_unique.
  - apply list_elem_of_here.
  - discriminate.
  - reflexivity.
  - reflexivity.
Defined.

Lemma flask_create_planet_new_run :
  ∃ planet,
    FlaskApp.create_planet Sample.flask_fresh Sample.flask_testuser
      Sample.flask_state 1000
      = ({| FlaskApp.status := 201; FlaskApp.body := FlaskApp.JsonObject planet |},
         {| FlaskApp.planets_db := FlaskApp.planets_db Sample.flask_state ++ [planet];
            FlaskApp.users_db := FlaskApp.users_db Sample.flask_state |}) ∧
    FlaskSpec.has_planet_keys planet ∧
    planet !! "id" = Some (FlaskApp.JInt 3) ∧
    planet !! "name" = Some (FlaskApp.JStr "New Planet") ∧
    planet !! "description" = Some FlaskApp.JNull ∧
    (∀ p v, p ∈ FlaskApp.planets_db Sample.flask_state → p !! "id" = Some v →
            FlaskApp.py_eq v (FlaskApp.JInt 3) = false).
Proof.
  destruct (FlaskMore.flask_create_planet_new Sample.flask_fresh Sample.flask_testuser
              Sample.flask_state 1000
              (FlaskApp.JStr "New Planet") (FlaskApp.JStr "Ice Giant")
              (FlaskApp.JFloat (Q2Qc (192 # 10))) (FlaskApp.JFloat (Q2Qc 25362))
              (FlaskApp.JInt 3))
    as (planet & Hrun & Hkeys & Hid & Hname & _ & _ & _ & Hdesc & _ & _ & Hnew & _).
  - reflexivity.
  - intros p Hp. apply list_elem_of_In in Hp.
    destruct Hp as [<-|[<-|[]]]; reflexivity.
  - reflexivity.
  - reflexivity.
  - reflexivity.
  - reflexivity.
  - exists planet. split_and!; [done..|]. by apply (Hnew 3).
Defined.

Lemma flask_create_planet_error_run :
  FlaskApp.create_planet Sample.flask_name_only Sample.flask_testuser
    Sample.flask_state 1000
    = (FlaskApp.internal_server_error, Sample.flask_state).
Proof.
  apply FlaskMore.flask_create_planet_error. right.
  exists (FlaskApp.JStr "New Planet"). split_and!.
  - reflexivity.
  - intros p Hp. apply list_elem_of_In in Hp.
    destruct Hp as [<-|[<-|[]]]; reflexivity.
  - left. reflexivity.
Defined.

Lemma flask_create_then_get_run :
  FlaskApp.get_planet 3
    {| FlaskApp.planets_db :=
         FlaskApp.planets_db Sample.flask_state ++ [Sample.flask_fresh_planet];
       FlaskApp.users_db := FlaskApp.users_db Sample.flask_state |}
    = {| FlaskApp.status := 200;
         FlaskApp.body := FlaskApp.JsonObject Sample.flask_fresh_planet |} ∧
  FlaskApp.get_planets
    {| FlaskApp.planets_db :=
         FlaskApp.planets_db Sample.flask_state ++ [Sample.flask_fresh_planet];
       FlaskApp.users_db := FlaskApp.users_db Sample.flask_state |}
    = FlaskApp.get_planets Sample.flask_state ++ [Sample.flask_fresh_planet].
Proof.
  apply (FlaskMore.flask_create_then_get Sample.flask_fresh Sample.flask_testuser
           Sample.flask_state 1000).
  - reflexivity.
  - reflexivity.
Defined.

Lemma flask_delete_planet_removes_run :
  ∃ st',
    FlaskApp.delete_planet 1 Sample.flask_testuser Sample.flask_state 1000
      = ({| FlaskApp.status := 204; FlaskApp.body := FlaskApp.Text "" |}, st') ∧
    FlaskApp.planets_db st'
      = filter (λ p, FlaskApp.has_id 1 p = false)
               (FlaskApp.planets_db Sample.flask_state) ∧
    FlaskApp.users_db st' = FlaskApp.users_db Sample.flask_state ∧
    FlaskApp.get_planet 1 st' = FlaskSpec.not_found ∧
    (∀ now', FlaskApp.delete_planet 1 Sample.flask_testuser st' now'
               = (FlaskSpec.not_found, st')) ∧
    (∀ data now', FlaskApp.update_planet 1 data Sample.flask_testuser st' now'
                    = (FlaskSpec.not_found, st')).
Proof.
  apply (FlaskMore.flask_delete_planet_removes 1 Sample.flask_testuser
           Sample.flask_state 1000 0%nat (Sample.flask_planet 1 "Test Planet 1")).
  apply sample_find_planet.
Defined.

Lemma flask_update_planet_effect_run :
  ∃ p',
    FlaskApp.update_planet 1 Sample.flask_redescribe Sample.flask_testuser
      Sample.flask_state 1000
      = ({| FlaskApp.status := 200; FlaskApp.body := FlaskApp.JsonObject p' |},
         {| FlaskApp.planets_db := <[0%nat := p']> (FlaskApp.planets_db Sample.flask_state);
            FlaskApp.users_db := FlaskApp.users_db Sample.flask_state |}) ∧
    p' !! "updated_at" = Some (FlaskApp.JStr (FlaskApp.isoformat 1000)) ∧
    (∀ k, k ≠ "updated_at" →
          p' !! k = FlaskSpec.patched Sample.flask_redescribe
                      (Sample.flask_planet 1 "Test Planet 1") k) ∧
    dom p' = dom (Sample.flask_planet 1 "Test Planet 1") ∪ {["updated_at"]}.
Proof.
  apply (FlaskMore.flask_update_planet_effect 1 Sample.flask_redescribe
           Sample.flask_testuser Sample.flask_state 1000).
  apply sample_find_planet.
Defined.

Lemma flask_planet_keys_kept_run :
  (∀ data,
     Forall FlaskSpec.has_planet_keys
       (FlaskApp.planets_db
          (snd (FlaskApp.create_planet data Sample.flask_testuser
                  Sample.flask_state 1000)))) ∧
  (∀ pid data,
     Forall FlaskSpec.has_planet_keys
       (FlaskApp.planets_db
          (snd (FlaskApp.update_planet pid data Sample.flask_testuser
                  Sample.flask_state 1000)))) ∧
  (∀ pid,
     Forall FlaskSpec.has_planet_keys
       (FlaskApp.planets_db
          (snd (FlaskApp.delete_planet pid Sample.flask_testuser
                  Sample.flask_state 1000)))).
Proof.
  apply (FlaskMore.flask_planet_keys_kept Sample.flask_state Sample.flask_testuser 1000).
  repeat constructor.
Defined.

Lemma init_data_then_reads_run :
  (∀ (k : nat) planet_data,
     FlaskSpec.good_prefix Sample.seed_records !! k = Some planet_data →
     ∃ planet,
       FlaskApp.get_planets
         (FlaskApp.init_data (Some Sample.seed_records) "s1" "s2"
            Sample.flask_start 1000) !! k = Some planet ∧
       FlaskApp.get_planet (Z.of_nat k + 1)
         (FlaskApp.init_data (Some Sample.seed_records) "s1" "s2"
            Sample.flask_start 1000)
         = {| FlaskApp.status := 200; FlaskApp.body := FlaskApp.JsonObject planet |} ∧
       planet !! "id" = Some (FlaskApp.JInt (Z.of_nat k + 1)) ∧
       planet !! "name" = planet_data !! "name") ∧
  (∀ pid, pid < 1 ∨ Z.of_nat (length (FlaskSpec.good_prefix Sample.seed_records)) < pid →
     FlaskApp.get_planet pid
       (FlaskApp.init_data (Some Sample.seed_records) "s1" "s2" Sample.flask_start 1000)
     = FlaskSpec.not_found) ∧
  FlaskApp.new_planet_id
    (FlaskApp.init_data (Some Sample.seed_records) "s1" "s2" Sample.flask_start 1000)
    = Some (FlaskApp.JInt
              (Z.of_nat (length (FlaskSpec.good_prefix Sample.seed_records)) + 1)).
Proof.
  apply (FlaskMore.init_data_then_reads Sample.seed_records "s1" "s2"
           Sample.flask_start 1000).
  reflexivity.
Defined.

(** Where the largest id is a float, the new id is the rounded sum:
    after [1e16] it is [1e16] again, so the planet just created has the
    id of an older one, and reading that id gives the older one. *)
Lemma float_id_is_handed_out_again :
  FlaskApp.new_planet_id Sample.flask_float_state
    = Some (FlaskApp.JFloat (FlaskApp.Z2Qc (10 ^ 16))) ∧
  ∃ planet st',
    FlaskApp.create_planet Sample.flask_fresh Sample.flask_testuser
      Sample.flask_float_state 1000
      = ({| FlaskApp.status := 201; FlaskApp.body := FlaskApp.JsonObject planet |},
         st') ∧
    planet !! "name" = Some (FlaskApp.JStr "New Planet") ∧
    FlaskApp.get_planet (10 ^ 16) st'
      = {| FlaskApp.status := 200;
           FlaskApp.body := FlaskApp.JsonObject Sample.flask_float_planet |}.
Proof.
  split; [reflexivity|].
  eexists _, _. split_and!; reflexivity.
Qed.

End more_runs.
